(** * The Asset reconciliation handler of rafter (package [asset])

    A shallow embedding of [assetHandler.Do] and of the functions it
    dispatches to, followed by the properties of the reconciliation
    state machine.

    The handler talks to its collaborators (bucket probe, object store,
    loader, webhooks) through Go interfaces.  Here every collaborator is a
    function on an abstract world [W]; the handler itself is a program in a
    small monad that threads the world, collects the trace of every call it
    makes (with the answer it got), and can panic on a nil dereference. *)

From stdpp Require Import base strings list gmap.

Open Scope string_scope.
Open Scope list_scope.
Open Scope stdpp_scope.
Open Scope Z_scope.

(** ** Go runtime types *)

(** [error]: a Go error is observed here only through [err.Error()]. *)
Definition error := string.

Module errors.
(** [errors.Wrap(err, message)]: the message, a colon, the cause. *)
Definition Wrap (err : error) (message : string) : error :=
  message +:+ ": " +:+ err.
End errors.

(** [time.Time] as the number of nanoseconds since Go's zero instant,
    [time.Duration] as a number of nanoseconds. *)
Module time.
Definition Time := Z.
Definition Duration := Z.
Definition Add (t : Time) (d : Duration) : Time := (t + d)%Z.
Definition Before (t u : Time) : bool := (t <? u)%Z.
Definition After (t u : Time) : bool := (u <? t)%Z.
Definition IsZero (t : Time) : bool := (t =? 0)%Z.
End time.

(** [*metav1.Time]: the pointer is [None] when nil. *)
Module v1.
Definition IsZero (t : option time.Time) : bool :=
  match t with
  | None => true
  | Some t => time.IsZero t
  end.
End v1.

(** ** API types (package [v1beta1]) *)

Module v1beta1.

(** Modelled from the spec: the declaration of [AssetPhase] is not among
    the sources; section 3 gives [phase] in {Pending, Ready, Failed}.
    [PhaseUnset] is the zero value of a status never written. *)
Inductive AssetPhase :=
| PhaseUnset | AssetReady | AssetPending | AssetFailed.

(** Modelled from the spec: the declaration of [AssetReason] is not among
    the sources; section 6 gives the closed enumeration.  [ReasonUnset]
    is the zero value of a status never written. *)
Inductive AssetReason :=
| ReasonUnset
| AssetScheduled
| AssetBucketNotReady
| AssetBucketError
| AssetPulled
| AssetPullingFailed
| AssetMutated
| AssetMutationError
| AssetMutationFailed
| AssetValidated
| AssetValidationError
| AssetValidationFailed
| AssetMetadataExtracted
| AssetMetadataExtractionFailed
| AssetUploaded
| AssetUploadFailed
| AssetCleaned
| AssetCleanupError
| AssetMissingContent
| AssetRemoteContentVerificationError.

#[global] Instance AssetPhase_eq_dec : EqDecision AssetPhase.
Proof. solve_decision. Defined.

#[global] Instance AssetReason_eq_dec : EqDecision AssetReason.
Proof. solve_decision. Defined.

(** [runtime.RawExtension{Raw}] and [json.RawMessage]: opaque bytes. *)
Definition RawMessage := string.
Record RawExtension := { Raw : RawMessage }.

Record AssetFile := {
  Name : string;
  Metadata : option RawExtension
}.

Record AssetStatusRef := {
  BaseURL : string;
  Files : list AssetFile
}.

Record CommonAssetStatus := {
  Phase : AssetPhase;
  Reason : AssetReason;
  Message : string;
  LastHeartbeatTime : time.Time;
  ObservedGeneration : Z;
  AssetRef : AssetStatusRef
}.

Record AssetBucketRef := { BucketRefName : string }.

(** Modelled from the spec: [AssetWebhookService] is not among the
    sources; section 3 gives each webhook list as an ordered list of
    endpoints, which the handler only measures and passes on. *)
Definition AssetWebhookService := string.

Record AssetSource := {
  URL : string;
  Mode : string;
  Filter : string;
  ValidationWebhookService : list AssetWebhookService;
  MutationWebhookService : list AssetWebhookService;
  MetadataWebhookService : list AssetWebhookService
}.

Record CommonAssetSpec := {
  Source : AssetSource;
  BucketRef : AssetBucketRef
}.

(** Modelled from the spec: section 3 gives the bucket status as
    [{remoteName, url, ready}]; the handler reads the first two. *)
Record CommonBucketStatus := {
  RemoteName : string;
  BucketURL : string
}.

End v1beta1.
Import v1beta1.

(** ** Webhook results (package [assethook]) *)

Module assethook.
(** Modelled from the spec: section 6 gives the webhook result as
    [{success, messages}] and the extractor's as [{name, metadata_json}];
    [messages] is only ever formatted into a status message. *)
Record Result := {
  Success : bool;
  Messages : string
}.

Record File := {
  FileName : string;
  FileMetadata : option RawMessage
}.
End assethook.

(** ** The reconciled object *)

(** [MetaAccessor]: the getters the handler calls, as fields. *)
Record MetaAccessor := {
  GetNamespace : string;
  GetName : string;
  GetGeneration : Z;
  GetDeletionTimestamp : option time.Time;
  GetFinalizers : list string
}.

(** ** Calls and their trace *)

(** One entry per call the handler makes, in program order; a call that
    returns carries what it returned. *)
Inductive Event :=
| ELog (line : string)
| EEventf (object : MetaAccessor) (eventType : string) (reason : AssetReason)
          (messageFmt : string) (args : list string)
| EFindBucketStatus (namespace name : string)
                    (ret : option CommonBucketStatus * bool * option error)
| EListObjects (bucketName prefix : string) (ret : list string * option error)
| EDeleteObjects (bucketName prefix : string) (ret : option error)
| EContainsAllObjects (bucketName assetName : string) (files : list string)
                      (ret : bool * option error)
| EPutObjects (bucketName assetName sourceBasePath : string) (files : list string)
              (ret : option error)
| ELoad (src assetName mode filter : string)
        (ret : string * list string * option error)
| EClean (path : string)
| EMutate (basePath : string) (files : list string)
          (services : list AssetWebhookService)
          (ret : assethook.Result * option error)
| EValidate (basePath : string) (files : list string)
            (services : list AssetWebhookService)
            (ret : assethook.Result * option error)
| EExtract (basePath : string) (files : list string)
           (services : list AssetWebhookService)
           (ret : list assethook.File * option error).

(** ** The handler monad *)

Inductive Outcome (A : Type) :=
| Returned (a : A)
| Panicked.
Arguments Returned {A} a.
Arguments Panicked {A}.

(** A computation takes the world, and gives an outcome, the world after,
    and the calls it made. *)
Definition M (W A : Type) : Type := W -> Outcome A * W * list Event.

Definition ret {W A} (a : A) : M W A := fun w => (Returned a, w, []).

Definition bind {W A B} (m : M W A) (k : A -> M W B) : M W B :=
  fun w =>
    match m w with
    | (Returned a, w1, t1) =>
        match k a w1 with
        | (o, w2, t2) => (o, w2, t1 ++ t2)
        end
    | (Panicked, w1, t1) => (Panicked, w1, t1)
    end.

Definition emit {W} (e : Event) : M W unit := fun w => (Returned tt, w, [e]).

Definition panic {W A} : M W A := fun w => (Panicked, w, []).

(** [defer cleanup; body]: the deferred call runs when the body is left,
    by return or by panic, and the body's outcome stands. *)
Definition defer {W A} (cleanup : M W unit) (body : M W A) : M W A :=
  fun w =>
    match body w with
    | (o, w1, t1) =>
        match cleanup w1 with
        | (_, w2, t2) => (o, w2, t1 ++ t2)
        end
    end.

(** A call to a collaborator that returns [R]. *)
Definition call {W R} (f : W -> R * W) (ev : R -> Event) : M W R :=
  fun w => match f w with (r, w1) => (Returned r, w1, [ev r]) end.

Declare Scope go_scope.
Delimit Scope go_scope with go.
Notation "'let*' x ':=' m 'in' k" := (bind m (fun x => k))
  (at level 10, x pattern, m at level 100, k at level 200) : go_scope.
Notation "m ;; k" := (bind m (fun _ => k))
  (at level 100, k at level 200, right associativity) : go_scope.
Open Scope go_scope.

(** The trace of a run and its result. *)
Definition result_of {W A} (r : Outcome A * W * list Event) : Outcome A := r.1.1.
Definition world_of {W A} (r : Outcome A * W * list Event) : W := r.1.2.
Definition trace_of {W A} (r : Outcome A * W * list Event) : list Event := r.2.

(** ** What the handler imports *)

(** Modelled from the spec: [AssetReason.Message] (section 6: each reason
    has a fixed message template), [fmt.Sprintf] and [metav1.Now] are
    declared outside the sources; the handler is stated over any of them. *)
Class Platform (W : Type) := {
  reasonMessage : AssetReason -> string;
  Sprintf : string -> list string -> string;
  Now : W -> time.Time
}.

(** ** Collaborator interfaces *)

Module store.
Record Store (W : Type) := {
  ListObjects : string -> string -> W -> (list string * option error) * W;
  DeleteObjects : string -> string -> W -> option error * W;
  ContainsAllObjects :
    string -> string -> list string -> W -> (bool * option error) * W;
  PutObjects :
    string -> string -> string -> list string -> W -> option error * W
}.
Arguments ListObjects {W}.
Arguments DeleteObjects {W}.
Arguments ContainsAllObjects {W}.
Arguments PutObjects {W}.
End store.

Module loader.
Record Loader (W : Type) := {
  Load : string -> string -> string -> string ->
         W -> (string * list string * option error) * W;
  Clean : string -> W -> W
}.
Arguments Load {W}.
Arguments Clean {W}.
End loader.

(** [assethook.Mutator] and [assethook.Validator]. *)
Definition Webhook (W : Type) : Type :=
  string -> list string -> list AssetWebhookService ->
  W -> (assethook.Result * option error) * W.

(** [assethook.MetadataExtractor]. *)
Definition MetadataExtractor (W : Type) : Type :=
  string -> list string -> list AssetWebhookService ->
  W -> (list assethook.File * option error) * W.

Definition FindBucketStatus (W : Type) : Type :=
  string -> string ->
  W -> (option CommonBucketStatus * bool * option error) * W.

(** [assetHandler]: the recorder and the logger are write-only, their
    calls are entries of the trace. *)
Record assetHandler (W : Type) := {
  findBucketStatus : FindBucketStatus W;
  store : store.Store W;
  loader : loader.Loader W;
  validator : Webhook W;
  mutator : Webhook W;
  metadataExtractor : MetadataExtractor W;
  relistInterval : time.Duration
}.
Arguments findBucketStatus {W}.
Arguments store {W}.
Arguments loader {W}.
Arguments validator {W}.
Arguments mutator {W}.
Arguments metadataExtractor {W}.
Arguments relistInterval {W}.

(** ** The handler (package [asset]) *)

Section Handler.
Context {W : Type} `{Platform W} (h : assetHandler W).

(** The answer of [Do] and of its branches: a status pointer and an
    error, each possibly nil. *)
Definition Answer : Type := option CommonAssetStatus * option error.

(** Reading through a pointer: nil panics. *)
Definition deref {A} (p : option A) : M W A :=
  match p with
  | Some a => ret a
  | None => panic
  end.

Definition logInfof (message : string) (args : list string) : M W unit :=
  emit (ELog (Sprintf message args)).

(** [reason.String()] converts the string-typed reason to a string; the
    entry keeps the reason itself. *)
Definition recordEventf (object : MetaAccessor) (eventType : string)
    (reason : AssetReason) (args : list string) : M W unit :=
  emit (EEventf object eventType reason (reasonMessage reason) args).

Definition recordNormalEventf (object : MetaAccessor) (reason : AssetReason)
    (args : list string) : M W unit :=
  recordEventf object "Normal" reason args.

Definition recordWarningEventf (object : MetaAccessor) (reason : AssetReason)
    (args : list string) : M W unit :=
  recordEventf object "Warning" reason args.

Definition getStatus (object : MetaAccessor) (phase : AssetPhase)
    (reason : AssetReason) (args : list string) : M W CommonAssetStatus :=
  fun w =>
    (Returned {| LastHeartbeatTime := Now w;
                 ObservedGeneration := GetGeneration object;
                 Phase := phase;
                 Reason := reason;
                 Message := Sprintf (reasonMessage reason) args;
                 AssetRef := {| BaseURL := ""; Files := [] |} |},
     w, []).

Definition getReadyStatus (object : MetaAccessor) (baseUrl : string)
    (files : list AssetFile) (reason : AssetReason) (args : list string)
    : M W CommonAssetStatus :=
  let* status := getStatus object AssetReady reason args in
  ret {| LastHeartbeatTime := LastHeartbeatTime status;
         ObservedGeneration := ObservedGeneration status;
         Phase := Phase status;
         Reason := Reason status;
         Message := Message status;
         AssetRef := {| BaseURL := baseUrl; Files := files |} |}.

(** [fmt.Sprintf("%s/%s", bucketUrl, assetName)] on two strings. *)
Definition getBaseUrl (bucketUrl assetName : string) : string :=
  bucketUrl +:+ "/" +:+ assetName.

Definition toRawExtension (message : option RawMessage) : option RawExtension :=
  match message with
  | None => None
  | Some m => Some {| Raw := m |}
  end.

Definition extractNames (files : list AssetFile) : list string :=
  foldl (fun names file => names ++ [Name file]) [] files.

Definition populateFiles (filenames : list string) : list AssetFile :=
  foldl (fun result filename =>
           result ++ [{| Name := filename; Metadata := None |}])
        [] filenames.

(** The Go map yields nil for a name it does not hold. *)
Definition mergeMetadata (files : list AssetFile)
    (metadatas : list assethook.File) : list AssetFile :=
  let metadataMap : gmap string (option RawMessage) :=
    foldl (fun m metadata =>
             <[assethook.FileName metadata := assethook.FileMetadata metadata]> m)
          ∅ metadatas in
  foldl (fun result file =>
           let metadata :=
             toRawExtension (default None (metadataMap !! Name file)) in
           result ++ [{| Name := Name file; Metadata := metadata |}])
        [] files.

(** *** Branch predicates *)

Definition isOnAddOrUpdate (object : MetaAccessor)
    (status : CommonAssetStatus) : bool :=
  negb (bool_decide (ObservedGeneration status = GetGeneration object)).

Definition isOnPending (status : CommonAssetStatus) (now : time.Time) : bool :=
  if bool_decide (Phase status = AssetPending) then
    if bool_decide (Reason status = AssetBucketNotReady)
       && time.Before now (time.Add (LastHeartbeatTime status) (relistInterval h))
    then false
    else true
  else false.

Definition isOnDelete (object : MetaAccessor) : bool :=
  negb (v1.IsZero (GetDeletionTimestamp object)).

Definition isOnFailed (status : CommonAssetStatus) : bool :=
  bool_decide (Phase status = AssetFailed)
  && negb (bool_decide (Reason status = AssetValidationFailed))
  && negb (bool_decide (Reason status = AssetMutationFailed)).

Definition isOnReady (status : CommonAssetStatus) (now : time.Time) : bool :=
  bool_decide (Phase status = AssetReady)
  && time.After now (time.Add (LastHeartbeatTime status) (relistInterval h)).

(** *** Remote cleanup *)

Definition deleteRemoteContent (object : MetaAccessor) (bucketName : string)
    : M W (option error) :=
  logInfof "Checking if bucket contains files for asset" [] ;;
  let prefix := GetName object in
  let* (files, err) :=
    call (store.ListObjects (store h) bucketName prefix)
         (EListObjects bucketName prefix) in
  match err with
  | Some e => ret (Some (errors.Wrap e "while listing files in bucket"))
  | None =>
      if bool_decide (length files = 0%nat) then
        logInfof "Bucket doesn't contains asset files, nothing to delete" [] ;;
        ret None
      else
        logInfof "Deleting asset remote content" [] ;;
        let* err :=
          call (store.DeleteObjects (store h) bucketName prefix)
               (EDeleteObjects bucketName prefix) in
        match err with
        | Some e => ret (Some (errors.Wrap e "while deleting asset content"))
        | None =>
            logInfof "Remote content deleted" [] ;;
            recordNormalEventf object AssetCleaned [] ;;
            ret None
        end
  end.

(** *** OnDelete *)

Definition onDelete (object : MetaAccessor) (spec : CommonAssetSpec)
    : M W Answer :=
  logInfof "Deleting Asset" [] ;;
  let bucket := BucketRefName (BucketRef spec) in
  let* (bucketStatus, isReady, err) :=
    call (findBucketStatus h (GetNamespace object) bucket)
         (EFindBucketStatus (GetNamespace object) bucket) in
  match err with
  | Some e => ret (None, Some (errors.Wrap e "while reading bucket status"))
  | None =>
      if negb isReady then
        logInfof "Nothing to delete, bucket %s is not ready" [bucket] ;;
        ret (None, None)
      else
        let* bucketStatus := deref bucketStatus in
        let* err := deleteRemoteContent object (RemoteName bucketStatus) in
        match err with
        | Some e => ret (None, Some e)
        | None =>
            logInfof "Asset deleted" [] ;;
            ret (None, None)
        end
  end.

(** *** OnReady: re-verification *)

Definition onReady (object : MetaAccessor) (spec : CommonAssetSpec)
    (status : CommonAssetStatus) : M W Answer :=
  let bucket := BucketRefName (BucketRef spec) in
  logInfof "Checking if bucket %s is ready" [bucket] ;;
  let* (bucketStatus, isReady, err) :=
    call (findBucketStatus h (GetNamespace object) bucket)
         (EFindBucketStatus (GetNamespace object) bucket) in
  match err with
  | Some e =>
      recordWarningEventf object AssetBucketError [e] ;;
      let* st := getStatus object AssetFailed AssetBucketError [e] in
      ret (Some st, Some e)
  | None =>
      if negb isReady then
        logInfof "Bucket %s is not ready" [bucket] ;;
        recordWarningEventf object AssetBucketNotReady [] ;;
        let* st := getStatus object AssetPending AssetBucketNotReady [] in
        ret (Some st, None)
      else
        logInfof "Bucket %s is ready" [bucket] ;;
        logInfof "Checking if store contains all files" [] ;;
        let* bucketStatus := deref bucketStatus in
        let names := extractNames (Files (AssetRef status)) in
        let* (exists_, err) :=
          call (store.ContainsAllObjects (store h) (RemoteName bucketStatus)
                  (GetName object) names)
               (EContainsAllObjects (RemoteName bucketStatus)
                  (GetName object) names) in
        match err with
        | Some e =>
            recordWarningEventf object AssetRemoteContentVerificationError [e] ;;
            let* st := getStatus object AssetFailed
                         AssetRemoteContentVerificationError [e] in
            ret (Some st, Some e)
        | None =>
            if negb exists_ then
              recordWarningEventf object AssetMissingContent [] ;;
              let* st := getStatus object AssetFailed AssetMissingContent [] in
              ret (Some st, err)
            else
              logInfof "Asset is up-to-date" [] ;;
              let* st := getReadyStatus object (BaseURL (AssetRef status))
                           (Files (AssetRef status)) AssetUploaded [] in
              ret (Some st, None)
        end
  end.
(** *** OnPending: the full pipeline *)

(** [defer h.loader.Clean(basePath)]: the error it returns is dropped. *)
Definition cleanWorkspace (basePath : string) : M W unit :=
  fun w => (Returned tt, loader.Clean (loader h) basePath w, [EClean basePath]).

(** A webhook stage either leaves [onPending] with an answer ([Some]) or
    lets it go on ([None]). *)
Definition onPending (object : MetaAccessor) (spec : CommonAssetSpec)
    (status : CommonAssetStatus) : M W Answer :=
  let bucket := BucketRefName (BucketRef spec) in
  let source := Source spec in
  logInfof "Checking if bucket %s is ready" [bucket] ;;
  let* (bucketStatus, isReady, err) :=
    call (findBucketStatus h (GetNamespace object) bucket)
         (EFindBucketStatus (GetNamespace object) bucket) in
  match err with
  | Some e =>
      recordWarningEventf object AssetBucketError [e] ;;
      let* st := getStatus object AssetFailed AssetBucketError [e] in
      ret (Some st, Some e)
  | None =>
  if negb isReady then
    logInfof "Bucket %s is not ready" [bucket] ;;
    recordWarningEventf object AssetBucketNotReady [] ;;
    let* st := getStatus object AssetPending AssetBucketNotReady [] in
    ret (Some st, None)
  else
  logInfof "Bucket %s is ready" [bucket] ;;
  let* bucketStatus := deref bucketStatus in
  let* err := deleteRemoteContent object (RemoteName bucketStatus) in
  match err with
  | Some e =>
      recordWarningEventf object AssetCleanupError [e] ;;
      let* st := getStatus object AssetFailed AssetCleanupError [e] in
      ret (Some st, Some e)
  | None =>
  logInfof "Loading files from %s" [URL source] ;;
  let* (basePath, filenames, err) :=
    call (loader.Load (loader h) (URL source) (GetName object)
            (Mode source) (Filter source))
         (ELoad (URL source) (GetName object) (Mode source) (Filter source)) in
  defer (cleanWorkspace basePath) (
  match err with
  | Some e =>
      recordWarningEventf object AssetPullingFailed [e] ;;
      let* st := getStatus object AssetFailed AssetPullingFailed [e] in
      ret (Some st, Some e)
  | None =>
  logInfof "Files loaded" [] ;;
  recordNormalEventf object AssetPulled [] ;;

  let* early :=
    if bool_decide (0 < length (MutationWebhookService source))%nat then
      logInfof "Mutating Asset content" [] ;;
      let* (result, err) :=
        call (mutator h basePath filenames (MutationWebhookService source))
             (EMutate basePath filenames (MutationWebhookService source)) in
      match err with
      | Some e =>
          recordWarningEventf object AssetMutationFailed [e] ;;
          let* st := getStatus object AssetFailed AssetMutationError [e] in
          ret (Some (Some st, Some e))
      | None =>
          if negb (assethook.Success result) then
            recordWarningEventf object AssetMutationFailed
              [assethook.Messages result] ;;
            let* st := getStatus object AssetFailed AssetMutationFailed
                         [assethook.Messages result] in
            ret (Some (Some st, None))
          else
            logInfof "Asset content mutated" [] ;;
            recordNormalEventf object AssetMutated [] ;;
            ret None
      end
    else ret None in
  match early with
  | Some answer => ret answer
  | None =>

  let* early :=
    if bool_decide (0 < length (ValidationWebhookService source))%nat then
      logInfof "Validating Asset content" [] ;;
      let* (result, err) :=
        call (validator h basePath filenames (ValidationWebhookService source))
             (EValidate basePath filenames (ValidationWebhookService source)) in
      match err with
      | Some e =>
          recordWarningEventf object AssetValidationError [e] ;;
          let* st := getStatus object AssetFailed AssetValidationError [e] in
          ret (Some (Some st, Some e))
      | None =>
          if negb (assethook.Success result) then
            recordWarningEventf object AssetValidationFailed
              [assethook.Messages result] ;;
            let* st := getStatus object AssetFailed AssetValidationFailed
                         [assethook.Messages result] in
            ret (Some (Some st, None))
          else
            logInfof "Asset content validated" [] ;;
            recordNormalEventf object AssetValidated [] ;;
            ret None
      end
    else ret None in
  match early with
  | Some answer => ret answer
  | None =>

  let files := populateFiles filenames in
  let* merged :=
    if bool_decide (0 < length (MetadataWebhookService source))%nat then
      logInfof "Extracting metadata from Assets content" [] ;;
      let* (result, err) :=
        call (metadataExtractor h basePath filenames
                (MetadataWebhookService source))
             (EExtract basePath filenames (MetadataWebhookService source)) in
      match err with
      | Some e =>
          recordWarningEventf object AssetMetadataExtractionFailed [e] ;;
          let* st := getStatus object AssetFailed
                       AssetMetadataExtractionFailed [e] in
          ret (inl (Some st, Some e))
      | None =>
          let files := mergeMetadata files result in
          logInfof "Metadata extracted" [] ;;
          recordNormalEventf object AssetMetadataExtracted [] ;;
          ret (inr files)
      end
    else ret (inr files) in
  match merged with
  | inl answer => ret answer
  | inr files =>

  logInfof "Uploading Asset content to Minio" [] ;;
  let* err :=
    call (store.PutObjects (store h) (RemoteName bucketStatus)
            (GetName object) basePath filenames)
         (EPutObjects (RemoteName bucketStatus) (GetName object)
            basePath filenames) in
  match err with
  | Some e =>
      recordWarningEventf object AssetUploadFailed [e] ;;
      let* st := getStatus object AssetFailed AssetUploadFailed [e] in
      ret (Some st, Some e)
  | None =>
      logInfof "Asset content uploaded" [] ;;
      recordNormalEventf object AssetUploaded [] ;;
      let* st := getReadyStatus object
                   (getBaseUrl (BucketURL bucketStatus) (GetName object))
                   files AssetUploaded [] in
      ret (Some st, None)
  end end end end end)
  end end.

(** *** The orchestrator *)

Definition Do (now : time.Time) (instance : MetaAccessor)
    (spec : CommonAssetSpec) (status : CommonAssetStatus) : M W Answer :=
  logInfof "Start common Asset handling" [] ;;
  defer (logInfof "Finish common Asset handling" []) (
    if isOnDelete instance then
      logInfof "On delete" [] ;;
      onDelete instance spec
    else if isOnAddOrUpdate instance status then
      logInfof "On add or update" [] ;;
      let* st := getStatus instance AssetPending AssetScheduled [] in
      ret (Some st, None)
    else if isOnReady status now then
      logInfof "On ready" [] ;;
      onReady instance spec status
    else if isOnPending status now then
      logInfof "On pending" [] ;;
      onPending instance spec status
    else if isOnFailed status then
      logInfof "On failed" [] ;;
      onPending instance spec status
    else
      logInfof "Action not taken" [] ;;
      ret (None, None)).
End Handler.

(** ** A scripted world

    A world whose collaborators answer from a script, for running the
    handler on the scenarios of the specification. *)

Module scenario.

Record Script := {
  bucketAnswer : option CommonBucketStatus * bool * option error;
  listAnswer : list string * option error;
  deleteAnswer : option error;
  containsAnswer : bool * option error;
  putAnswer : option error;
  loadAnswer : string * list string * option error;
  mutateAnswer : assethook.Result * option error;
  validateAnswer : assethook.Result * option error;
  extractAnswer : list assethook.File * option error;
  clock : time.Time;
  cleaned : list string
}.

Definition clean (path : string) (w : Script) : Script :=
  {| bucketAnswer := bucketAnswer w;
     listAnswer := listAnswer w;
     deleteAnswer := deleteAnswer w;
     containsAnswer := containsAnswer w;
     putAnswer := putAnswer w;
     loadAnswer := loadAnswer w;
     mutateAnswer := mutateAnswer w;
     validateAnswer := validateAnswer w;
     extractAnswer := extractAnswer w;
     clock := clock w;
     cleaned := cleaned w ++ [path] |}.

Definition handler (relist : time.Duration) : assetHandler Script :=
  {| findBucketStatus := fun _ _ w => (bucketAnswer w, w);
     store :=
       {| store.ListObjects := fun _ _ w => (listAnswer w, w);
          store.DeleteObjects := fun _ _ w => (deleteAnswer w, w);
          store.ContainsAllObjects := fun _ _ _ w => (containsAnswer w, w);
          store.PutObjects := fun _ _ _ _ w => (putAnswer w, w) |};
     loader :=
       {| loader.Load := fun _ _ _ _ w => (loadAnswer w, w);
          loader.Clean := clean |};
     validator := fun _ _ _ w => (validateAnswer w, w);
     mutator := fun _ _ _ w => (mutateAnswer w, w);
     metadataExtractor := fun _ _ _ w => (extractAnswer w, w);
     relistInterval := relist |}.

(** Every reason's template is its formatted arguments alone. *)
#[global] Instance platform : Platform Script :=
  {| reasonMessage := fun _ => "%s";
     Sprintf := fun format args =>
       if String.eqb format "%s" then String.concat " " args
       else String.concat " " (format :: args);
     Now := clock |}.

Definition ok : assethook.Result :=
  {| assethook.Success := true; assethook.Messages := "" |}.

(** Scenario 1 of the specification: bucket [b1] ready at
    [http://cdn/r1], the loader yields [a.md] and [b.md]. *)
Definition happy : Script :=
  {| bucketAnswer :=
       (Some {| RemoteName := "r1"; BucketURL := "http://cdn/r1" |}, true, None);
     listAnswer := ([], None);
     deleteAnswer := None;
     containsAnswer := (true, None);
     putAnswer := None;
     loadAnswer := ("/tmp/w", ["a.md"; "b.md"], None);
     mutateAnswer := (ok, None);
     validateAnswer := (ok, None);
     extractAnswer := ([], None);
     clock := 1000;
     cleaned := [] |}.

Definition a1 : MetaAccessor :=
  {| GetNamespace := "default";
     GetName := "a1";
     GetGeneration := 1;
     GetDeletionTimestamp := None;
     GetFinalizers := [] |}.

Definition a1_deleted : MetaAccessor :=
  {| GetNamespace := "default";
     GetName := "a1";
     GetGeneration := 1;
     GetDeletionTimestamp := Some 900;
     GetFinalizers := [] |}.

Definition source (mutation validation metadata : list AssetWebhookService)
    : AssetSource :=
  {| URL := "http://x/a.zip";
     Mode := "package";
     Filter := "";
     ValidationWebhookService := validation;
     MutationWebhookService := mutation;
     MetadataWebhookService := metadata |}.

Definition spec_of (mutation validation metadata : list AssetWebhookService)
    : CommonAssetSpec :=
  {| Source := source mutation validation metadata;
     BucketRef := {| BucketRefName := "b1" |} |}.

Definition plain : CommonAssetSpec := spec_of [] [] [].

Definition status_of (phase : AssetPhase) (reason : AssetReason)
    (heartbeat : time.Time) (generation : Z) (ref : AssetStatusRef)
    : CommonAssetStatus :=
  {| Phase := phase;
     Reason := reason;
     Message := "";
     LastHeartbeatTime := heartbeat;
     ObservedGeneration := generation;
     AssetRef := ref |}.

Definition no_ref : AssetStatusRef := {| BaseURL := ""; Files := [] |}.

Definition uploaded_ref : AssetStatusRef :=
  {| BaseURL := "http://cdn/r1/a1";
     Files := [ {| Name := "a.md"; Metadata := None |};
                {| Name := "b.md"; Metadata := None |} ] |}.

(** The status never written: call 1 of scenario 1. *)
Definition empty_status : CommonAssetStatus :=
  status_of PhaseUnset ReasonUnset 0 0 no_ref.

Definition scheduled : CommonAssetStatus :=
  status_of AssetPending AssetScheduled 1000 1 no_ref.

(** The happy world with some answers replaced. *)
Definition with_load (answer : string * list string * option error)
    (w : Script) : Script :=
  {| bucketAnswer := bucketAnswer w;
     listAnswer := listAnswer w;
     deleteAnswer := deleteAnswer w;
     containsAnswer := containsAnswer w;
     putAnswer := putAnswer w;
     loadAnswer := answer;
     mutateAnswer := mutateAnswer w;
     validateAnswer := validateAnswer w;
     extractAnswer := extractAnswer w;
     clock := clock w;
     cleaned := cleaned w |}.

Definition with_webhooks (mutation validation : assethook.Result * option error)
    (w : Script) : Script :=
  {| bucketAnswer := bucketAnswer w;
     listAnswer := listAnswer w;
     deleteAnswer := deleteAnswer w;
     containsAnswer := containsAnswer w;
     putAnswer := putAnswer w;
     loadAnswer := loadAnswer w;
     mutateAnswer := mutation;
     validateAnswer := validation;
     extractAnswer := extractAnswer w;
     clock := clock w;
     cleaned := cleaned w |}.

Definition with_store (listed : list string * option error)
    (deleted : option error) (present : bool * option error)
    (w : Script) : Script :=
  {| bucketAnswer := bucketAnswer w;
     listAnswer := listed;
     deleteAnswer := deleted;
     containsAnswer := present;
     putAnswer := putAnswer w;
     loadAnswer := loadAnswer w;
     mutateAnswer := mutateAnswer w;
     validateAnswer := validateAnswer w;
     extractAnswer := extractAnswer w;
     clock := clock w;
     cleaned := cleaned w |}.

(** Scenario 6: the mutator answers with a transport error. *)
Definition mutator_down : Script :=
  with_webhooks (ok, Some "timeout") (ok, None) happy.

(** Scenario 2: the validator rejects the content. *)
Definition rejected : Script :=
  with_webhooks (ok, None)
    ({| assethook.Success := false; assethook.Messages := "bad" |}, None)
    happy.

(** The prefix holds two objects and the bulk delete fails. *)
Definition delete_fails : Script :=
  with_store (["a1/a.md"; "a1/b.md"], None) (Some "boom") (true, None) happy.

(** Scenario 5: one file is gone at re-verification. *)
Definition drifted : Script :=
  with_store ([], None) None (false, None) happy.

(** The happy world two relist intervals later (call 4 of scenario 1). *)
Definition later : Script :=
  {| bucketAnswer := bucketAnswer happy;
     listAnswer := listAnswer happy;
     deleteAnswer := deleteAnswer happy;
     containsAnswer := containsAnswer happy;
     putAnswer := putAnswer happy;
     loadAnswer := loadAnswer happy;
     mutateAnswer := mutateAnswer happy;
     validateAnswer := validateAnswer happy;
     extractAnswer := extractAnswer happy;
     clock := 1200;
     cleaned := cleaned happy |}.

(** The loader fails after it has made its workspace. *)
Definition load_fails : Script :=
  with_load ("/tmp/w", [], Some "unreachable") happy.

End scenario.

(** ** Reading a run *)

(** The calls that reach a collaborator: everything but the log lines. *)
Definition is_log (e : Event) : bool :=
  match e with
  | ELog _ => true
  | _ => false
  end.

Definition collaborator_calls (tr : list Event) : list Event :=
  filter (fun e => is_log e = false) tr.

(** A run [r] seen from the caller of a function that logs [before] first
    and [after] last. *)
Definition framed {W A} (before after : list Event)
    (r : Outcome A * W * list Event) : Outcome A * W * list Event :=
  (result_of r, world_of r, before ++ trace_of r ++ after).

(** The first and the last line [Do] logs. *)
Definition start_line {W} `{Platform W} : Event :=
  ELog (Sprintf "Start common Asset handling" []).
Definition finish_line {W} `{Platform W} : Event :=
  ELog (Sprintf "Finish common Asset handling" []).

(** A stage succeeded: the call returned no error, the probe found the
    bucket ready, the webhook accepted, the store holds every object. *)
Definition stage_succeeded (e : Event) : bool :=
  match e with
  | EFindBucketStatus _ _ (bucket, ready, err) =>
      match err, ready, bucket with
      | None, true, Some _ => true
      | _, _, _ => false
      end
  | EListObjects _ _ (_, None) => true
  | EListObjects _ _ _ => false
  | EDeleteObjects _ _ None => true
  | EDeleteObjects _ _ _ => false
  | EContainsAllObjects _ _ _ (present, err) =>
      match err with
      | None => present
      | Some _ => false
      end
  | EPutObjects _ _ _ _ None => true
  | EPutObjects _ _ _ _ _ => false
  | ELoad _ _ _ _ (_, _, None) => true
  | ELoad _ _ _ _ _ => false
  | EMutate _ _ _ (result, None) => assethook.Success result
  | EMutate _ _ _ _ => false
  | EValidate _ _ _ (result, None) => assethook.Success result
  | EValidate _ _ _ _ => false
  | EExtract _ _ _ (_, None) => true
  | EExtract _ _ _ _ => false
  | ELog _ | EEventf _ _ _ _ _ | EClean _ => true
  end.

(** The calls [onReady] and [onDelete] can make. *)
Definition ready_call (e : Event) : bool :=
  match e with
  | ELog _ | EEventf _ _ _ _ _ | EFindBucketStatus _ _ _
  | EContainsAllObjects _ _ _ _ => true
  | _ => false
  end.

Definition delete_call (e : Event) : bool :=
  match e with
  | ELog _ | EEventf _ _ _ _ _ | EFindBucketStatus _ _ _
  | EListObjects _ _ _ | EDeleteObjects _ _ _ => true
  | _ => false
  end.

(** Every [Load] of the trace is followed by calls that end with the
    [Clean] of the path it returned. *)
Fixpoint workspace_released (tr : list Event) : Prop :=
  match tr with
  | [] => True
  | ELoad _ _ _ _ (basePath, _, _) :: rest =>
      last rest = Some (EClean basePath) /\ workspace_released rest
  | _ :: rest => workspace_released rest
  end.

(** The reasons of the Warning events of a trace, in order. *)
Fixpoint warning_reasons (tr : list Event) : list AssetReason :=
  match tr with
  | [] => []
  | EEventf _ eventType reason _ _ :: rest =>
      if String.eqb eventType "Warning" then reason :: warning_reasons rest
      else warning_reasons rest
  | _ :: rest => warning_reasons rest
  end.

(** A status with nothing but its heartbeat changed. *)
Definition refreshed (status : CommonAssetStatus) (heartbeat : time.Time)
    : CommonAssetStatus :=
  {| Phase := Phase status;
     Reason := Reason status;
     Message := Message status;
     LastHeartbeatTime := heartbeat;
     ObservedGeneration := ObservedGeneration status;
     AssetRef := AssetRef status |}.

(** An answer that surfaces a failure as [reason]: a Failed status with
    that reason, together with an error. *)
Definition surfaced_as (reason : AssetReason) (o : Outcome Answer) : Prop :=
  exists st e,
    o = Returned (Some st, Some e)
    /\ Phase st = AssetFailed /\ Reason st = reason.

(** Modelled from the spec: the outer plane is not among the sources;
    section 4.1 has it persist a returned status and write nothing when
    the handler returns none. *)
Definition persisted (status : CommonAssetStatus) (o : Outcome Answer)
    : CommonAssetStatus :=
  match o with
  | Returned (Some st, _) => st
  | _ => status
  end.

(** Successive reconciles of one Asset at the instants [nows], each fed the
    status the previous one left. *)
Fixpoint reconcile {W} `{Platform W} (h : assetHandler W)
    (nows : list time.Time) (instance : MetaAccessor) (spec : CommonAssetSpec)
    (status : CommonAssetStatus) (w : W) : list (Outcome Answer) :=
  match nows with
  | [] => []
  | now :: rest =>
      let r := Do h now instance spec status w in
      result_of r ::
        reconcile h rest instance spec (persisted status (result_of r))
          (world_of r)
  end.

(** ** Reading a run: order and shape *)

(** The calls that come back with a verdict: every collaborator call but
    the deferred [Clean]. *)
Definition is_stage_call (e : Event) : bool :=
  match e with
  | ELog _ | EEventf _ _ _ _ _ | EClean _ => false
  | _ => true
  end.

(** [Q pre e] holds of every entry [e] of the trace, [pre] being the
    entries made before it. *)
Fixpoint each_after (Q : list Event -> Event -> Prop) (pre tr : list Event)
    : Prop :=
  match tr with
  | [] => True
  | e :: rest => Q pre e /\ each_after Q (pre ++ [e]) rest
  end.

(** A stage is only called after stages that succeeded. *)
Definition after_success (pre : list Event) (e : Event) : Prop :=
  if is_stage_call e then forallb stage_succeeded pre = true else True.

(** A bulk delete comes after a listing of the same prefix that answered
    with at least one object. *)
Definition delete_after_listing (pre : list Event) (e : Event) : Prop :=
  match e with
  | EDeleteObjects bucketName prefix _ =>
      exists files,
        files <> [] /\ In (EListObjects bucketName prefix (files, None)) pre
  | _ => True
  end.

(** The answers [Do] gives: which reasons go with which phase, and which
    come with an error. *)
Definition consistent (a : Answer) : bool :=
  match a with
  | (None, _) => true
  | (Some st, err) =>
      match Phase st, Reason st, err with
      | AssetReady, AssetUploaded, None => true
      | AssetPending, AssetScheduled, None => true
      | AssetPending, AssetBucketNotReady, None => true
      | AssetFailed, AssetMutationFailed, None => true
      | AssetFailed, AssetValidationFailed, None => true
      | AssetFailed, AssetMissingContent, None => true
      | AssetFailed, AssetBucketError, Some _ => true
      | AssetFailed, AssetCleanupError, Some _ => true
      | AssetFailed, AssetPullingFailed, Some _ => true
      | AssetFailed, AssetMutationError, Some _ => true
      | AssetFailed, AssetValidationError, Some _ => true
      | AssetFailed, AssetMetadataExtractionFailed, Some _ => true
      | AssetFailed, AssetUploadFailed, Some _ => true
      | AssetFailed, AssetRemoteContentVerificationError, Some _ => true
      | _, _, _ => false
      end
  end.

(** The metadata of the last entry of [metadatas] named [name], if there is
    such an entry. *)
Fixpoint last_entry (name : string) (metadatas : list assethook.File)
    : option (option RawMessage) :=
  match metadatas with
  | [] => None
  | metadata :: rest =>
      match last_entry name rest with
      | Some m => Some m
      | None =>
          if String.eqb (assethook.FileName metadata) name
          then Some (assethook.FileMetadata metadata)
          else None
      end
  end.

(** The reasons of the Normal events of a trace, in order. *)
Fixpoint normal_reasons (tr : list Event) : list AssetReason :=
  match tr with
  | [] => []
  | EEventf _ eventType reason _ _ :: rest =>
      if String.eqb eventType "Normal" then reason :: normal_reasons rest
      else normal_reasons rest
  | _ :: rest => normal_reasons rest
  end.

(** What the pipeline hands to the store and to the webhooks, read at the
    entry [e] with [pre] the entries before it: the upload gets the Asset's
    name, the probed bucket's remote name and what [Load] returned; a
    webhook gets its non-empty list from the spec and what [Load]
    returned. *)
Definition passed_on (object : MetaAccessor) (spec : CommonAssetSpec)
    (pre : list Event) (e : Event) : Prop :=
  let loaded basePath files :=
    In (ELoad (URL (Source spec)) (GetName object) (Mode (Source spec))
          (Filter (Source spec)) (basePath, files, None)) pre in
  match e with
  | EPutObjects bucketName assetName basePath files _ =>
      assetName = GetName object
      /\ loaded basePath files
      /\ exists bucket,
           bucketName = RemoteName bucket
           /\ In (EFindBucketStatus (GetNamespace object)
                    (BucketRefName (BucketRef spec)) (Some bucket, true, None))
                 pre
  | EMutate basePath files services _ =>
      services = MutationWebhookService (Source spec)
      /\ services <> [] /\ loaded basePath files
  | EValidate basePath files services _ =>
      services = ValidationWebhookService (Source spec)
      /\ services <> [] /\ loaded basePath files
  | EExtract basePath files services _ =>
      services = MetadataWebhookService (Source spec)
      /\ services <> [] /\ loaded basePath files
  | _ => True
  end.

(** An outcome that is a Failed status with [reason], together with
    [err]. *)
Definition failed_with (reason : AssetReason) (err : error)
    (o : Outcome Answer) : Prop :=
  exists st,
    o = Returned (Some st, Some err)
    /\ Phase st = AssetFailed /\ Reason st = reason.

(** What a run outside deletion answers, read off one of its calls: a probe
    error, a bucket that is not ready, and an error from listing, loading,
    extracting metadata or uploading. *)
Definition answers_for (o : Outcome Answer) (e : Event) : Prop :=
  match e with
  | EFindBucketStatus _ _ (_, ready, err) =>
      match err with
      | Some e => failed_with AssetBucketError e o
      | None =>
          if ready then True
          else exists st,
                 o = Returned (Some st, None)
                 /\ Phase st = AssetPending
                 /\ Reason st = AssetBucketNotReady
      end
  | EListObjects _ _ (_, err) =>
      match err with
      | Some e =>
          failed_with AssetCleanupError
            (errors.Wrap e "while listing files in bucket") o
      | None => True
      end
  | ELoad _ _ _ _ (_, err) =>
      match err with
      | Some e => failed_with AssetPullingFailed e o
      | None => True
      end
  | EExtract _ _ _ (_, err) =>
      match err with
      | Some e => failed_with AssetMetadataExtractionFailed e o
      | None => True
      end
  | EPutObjects _ _ _ _ err =>
      match err with
      | Some e => failed_with AssetUploadFailed e o
      | None => True
      end
  | _ => True
  end.

(** The Normal events of a pipeline run that uploads, given whether it had
    remote content to delete first. *)
Definition upload_events (spec : CommonAssetSpec) (cleaned : bool)
    : list AssetReason :=
  (if cleaned then [AssetCleaned] else [])
  ++ [AssetPulled]
  ++ (if bool_decide (0 < length (MutationWebhookService (Source spec)))%nat
      then [AssetMutated] else [])
  ++ (if bool_decide (0 < length (ValidationWebhookService (Source spec)))%nat
      then [AssetValidated] else [])
  ++ (if bool_decide (0 < length (MetadataWebhookService (Source spec)))%nat
      then [AssetMetadataExtracted] else [])
  ++ [AssetUploaded].

Definition is_delete (e : Event) : bool :=
  match e with
  | EDeleteObjects _ _ _ => true
  | _ => false
  end.

(** ** The upload endpoint (package [requesthandler])

    [ServeHTTP] as a function of the request after parsing.  What it does
    to the outside is the list of its effects, in program order: the
    response it hands to [writeResponse], the status counter, the call of
    the uploader, the deferred clean-ups.  The files channel is the list of
    the values sent on it, in the order the producer sends them. *)

Module requesthandler.

Definition StatusOK : Z := 200.
Definition StatusMultiStatus : Z := 207.
Definition StatusBadRequest : Z := 400.
Definition StatusInternalServerError : Z := 500.
Definition StatusBadGateway : Z := 502.

Record ResponseError := {
  Message : string;
  FileName : string
}.

Record SystemBucketNames := {
  Private : string;
  Public : string
}.

Section Types.
(** [multipart.FileHeader] and [uploader.UploadResult] are declared outside
    the sources and only passed on; [fileheader.FromMultipart] wraps the
    header, which stands for its wrapper here. *)
Context {FileHeader UploadResult : Type}.

(** [uploader.FileUpload] and [uploader.UploadError]. *)
Record FileUpload := {
  Bucket : string;
  File : FileHeader;
  Directory : string
}.

Record UploadError := {
  ErrorFileName : string;
  Error : error
}.

Record Response := {
  UploadedFiles : list UploadResult;
  Errors : list ResponseError
}.

(** [multipart.Form]: a missing key reads as nil; a slice of values is
    [None] when nil, since [ServeHTTP] tells nil from empty. *)
Record Form := {
  FormValue : gmap string (option (list string));
  FormFile : gmap string (list FileHeader)
}.

(** The request as [ServeHTTP] meets it: what [ParseMultipartForm] returns
    and leaves in [MultipartForm], and what the two deferred clean-ups will
    return. *)
Record Request := {
  ParseMultipartForm : option error;
  MultipartForm : option Form;
  BodyClose : option error;
  RemoveAll : option error
}.

(** [RequestHandler]: the client, the timeout, the worker count and the
    external origin only reach [uploader.New]; the uploader built from them
    is the function [UploadFiles] of the files sent and their count. *)
Record RequestHandler := {
  UploadFiles :
    list FileUpload -> nat -> list UploadResult * list UploadError;
  buckets : SystemBucketNames
}.

Inductive Effect :=
| IncrementStatusCounter (status : Z)
| WriteResponse (statusCode : Z) (resp : Response)
| CallUploadFiles (files : list FileUpload) (filesCount : nat)
| GlogInfof (format : string) (filesCount : nat)
| GlogError (err : error)
| ObserveDuration
| CallRemoveAll
| CallBodyClose.

(** [strconv.FormatInt] and the seconds of [time.Now()]. *)
Context (FormatInt : Z -> Z -> string) (unixTime : Z).

Definition generateDirectoryName : string := FormatInt unixTime 32.

Definition populateFilesChannel (r : RequestHandler)
    (publicFiles privateFiles : list FileHeader) (filesCount : nat)
    (directory : string) : list FileUpload :=
  let filesCh :=
    foldl (fun filesCh file =>
             filesCh ++ [{| Bucket := Public (buckets r);
                            File := file;
                            Directory := directory |}])
          [] publicFiles in
  foldl (fun filesCh file =>
           filesCh ++ [{| Bucket := Private (buckets r);
                          File := file;
                          Directory := directory |}])
        filesCh privateFiles.

Definition writeInternalError (err : error) : list Effect :=
  [WriteResponse StatusInternalServerError
     {| UploadedFiles := [];
        Errors := [{| Message := err; FileName := "" |}] |}].

(** The two deferred functions. *)
Definition closeBody (rq : Request) : list Effect :=
  CallBodyClose ::
  match BodyClose rq with
  | Some err => [GlogError (errors.Wrap err "while closing request body")]
  | None => []
  end.

Definition removeFiles (rq : Request) : list Effect :=
  CallRemoveAll ::
  match RemoveAll rq with
  | Some err =>
      [GlogError
         (errors.Wrap err "while removing files loaded from multipart form")]
  | None => []
  end.

Definition ServeHTTP (r : RequestHandler) (rq : Request)
    : Outcome unit * list Effect :=
  let deferred (body : Outcome unit * list Effect) (cleanup : list Effect) :=
    (body.1, body.2 ++ cleanup) in
  deferred (
    match ParseMultipartForm rq with
    | Some err =>
        (Returned tt,
         writeInternalError (errors.Wrap err "while parsing multipart request"))
    | None =>
    match MultipartForm rq with
    | None =>
        (Returned tt,
         [IncrementStatusCounter StatusBadRequest;
          WriteResponse StatusBadRequest
            {| UploadedFiles := [];
               Errors :=
                 [{| Message := "No multipart/form-data form received.";
                     FileName := "" |}] |}])
    | Some form =>
    deferred (
      let directoryValues := default None (FormValue form !! "directory") in
      match
        match directoryValues with
        | None => Some generateDirectoryName
        | Some values => head values
        end
      with
      | None => (Panicked, [])
      | Some directory =>
      let privateFiles := default [] (FormFile form !! "private") in
      let publicFiles := default [] (FormFile form !! "public") in
      let filesCount := (length publicFiles + length privateFiles)%nat in
      if bool_decide (filesCount = 0%nat) then
        (Returned tt,
         [IncrementStatusCounter StatusBadRequest;
          WriteResponse StatusBadRequest
            {| UploadedFiles := [];
               Errors :=
                 [{| Message :=
                       "No files specified to upload. Use `private` and `public` fields to upload them.";
                     FileName := "" |}] |}])
      else
        let fileToUploadCh :=
          populateFilesChannel r publicFiles privateFiles filesCount directory in
        let '(uploadedFiles, errs) := UploadFiles r fileToUploadCh filesCount in
        let uploadErrors :=
          foldl (fun uploadErrors err =>
                   uploadErrors ++ [{| Message := Error err;
                                       FileName := ErrorFileName err |}])
                [] errs in
        let status :=
          if bool_decide (length uploadErrors = 0%nat) then StatusOK
          else if bool_decide (length uploadedFiles = 0%nat)
               then StatusBadGateway
               else StatusMultiStatus in
        (Returned tt,
         [CallUploadFiles fileToUploadCh filesCount;
          GlogInfof "Finished processing request with uploading %d files."
            filesCount;
          IncrementStatusCounter status;
          WriteResponse status
            {| UploadedFiles := uploadedFiles; Errors := uploadErrors |};
          ObserveDuration])
      end) (removeFiles rq)
    end end) (closeBody rq).

(** *** Reading the effects *)

Definition responses (effects : list Effect) : list (Z * Response) :=
  omap (fun e => match e with
                 | WriteResponse statusCode resp => Some (statusCode, resp)
                 | _ => None
                 end) effects.

Definition counted (effects : list Effect) : list Z :=
  omap (fun e => match e with
                 | IncrementStatusCounter status => Some status
                 | _ => None
                 end) effects.

Definition uploads (effects : list Effect) : list (list FileUpload * nat) :=
  omap (fun e => match e with
                 | CallUploadFiles files filesCount => Some (files, filesCount)
                 | _ => None
                 end) effects.

(** The directory [ServeHTTP] uploads to: the first value of the form's
    [directory] field, a generated name when the field is nil, none when
    the field is empty but not nil (the index panics). *)
Definition directory_of (form : Form) : option string :=
  match default None (FormValue form !! "directory") with
  | None => Some generateDirectoryName
  | Some values => head values
  end.

(** The files of the form as the uploader is to receive them. *)
Definition files_of (r : RequestHandler) (form : Form) (directory : string)
    : list FileUpload :=
  map (fun file => {| Bucket := Public (buckets r);
                      File := file;
                      Directory := directory |})
      (default [] (FormFile form !! "public"))
  ++ map (fun file => {| Bucket := Private (buckets r);
                         File := file;
                         Directory := directory |})
         (default [] (FormFile form !! "private")).

(** The clean-ups a request is owed when [ServeHTTP] is left. *)
Definition cleanups (rq : Request) : list Effect :=
  match ParseMultipartForm rq, MultipartForm rq with
  | None, Some _ => removeFiles rq
  | _, _ => []
  end ++ closeBody rq.

Definition is_cleanup (e : Effect) : bool :=
  match e with
  | CallRemoveAll | CallBodyClose => true
  | _ => false
  end.

(** The response goes with its status. *)
Definition fits (statusCode : Z) (resp : Response) : Prop :=
  (statusCode = StatusOK /\ Errors resp = [])
  \/ (statusCode = StatusMultiStatus
      /\ Errors resp <> [] /\ UploadedFiles resp <> [])
  \/ (statusCode = StatusBadGateway
      /\ Errors resp <> [] /\ UploadedFiles resp = [])
  \/ ((statusCode = StatusBadRequest \/ statusCode = StatusInternalServerError)
      /\ UploadedFiles resp = [] /\ exists e, Errors resp = [e]).

End Types.

Arguments FileUpload : clear implicits.
Arguments Response : clear implicits.
Arguments Form : clear implicits.
Arguments Request : clear implicits.
Arguments RequestHandler : clear implicits.
Arguments Effect : clear implicits.

End requesthandler.

(** A scripted upload: headers and results are file names; the uploader
    stores every file but those named [broken]. *)
Module upload_scenario.

Definition uploader (broken : list string)
    (files : list (requesthandler.FileUpload string)) (filesCount : nat)
    : list string * list requesthandler.UploadError :=
  (map requesthandler.File
     (filter (fun f => requesthandler.File f ∉ broken) files),
   map (fun f => {| requesthandler.ErrorFileName := requesthandler.File f;
                    requesthandler.Error := "upload failed" |})
     (filter (fun f => requesthandler.File f ∈ broken) files)).

Definition handler (broken : list string)
    : requesthandler.RequestHandler string string :=
  {| requesthandler.UploadFiles := uploader broken;
     requesthandler.buckets :=
       {| requesthandler.Private := "private-bucket";
          requesthandler.Public := "public-bucket" |} |}.

Definition form (directory : option (list string))
    (publicFiles privateFiles : list string) : requesthandler.Form string :=
  {| requesthandler.FormValue := {[ "directory" := directory ]};
     requesthandler.FormFile :=
       {[ "public" := publicFiles; "private" := privateFiles ]} |}.

Definition request (f : option (requesthandler.Form string))
    : requesthandler.Request string :=
  {| requesthandler.ParseMultipartForm := None;
     requesthandler.MultipartForm := f;
     requesthandler.BodyClose := None;
     requesthandler.RemoveAll := None |}.

Definition unparsable : requesthandler.Request string :=
  {| requesthandler.ParseMultipartForm := Some "no boundary";
     requesthandler.MultipartForm := None;
     requesthandler.BodyClose := None;
     requesthandler.RemoveAll := None |}.

Definition formatInt (i base : Z) : string := "1g0h2k".

Definition serve (broken : list string) (rq : requesthandler.Request string)
    : Outcome unit * list (requesthandler.Effect string string) :=
  requesthandler.ServeHTTP formatInt 1700000000 (handler broken) rq.

End upload_scenario.

(** ** Proof tools *)

Ltac unfold_go :=
  cbv beta iota zeta delta
    [onPending onReady onDelete deleteRemoteContent getReadyStatus getStatus
     recordWarningEventf recordNormalEventf recordEventf logInfof
     cleanWorkspace deref defer bind call emit ret panic
     result_of world_of trace_of framed fst snd].

(** Case on the innermost scrutinee the run is stuck on. *)
Ltac split_run :=
  match goal with
  | |- context [match ?x with _ => _ end] =>
      lazymatch x with
      | context [match _ with _ => _ end] => fail
      | negb ?b => destruct b eqn:?
      | _ => destruct x eqn:?
      end
  end.

Ltac run_paths := unfold_go; repeat (split_run; cbn [fst snd app negb]).

(** Find an entry in an explicit trace. *)
Ltac find_event := cbn [In]; repeat first [left; reflexivity | right].

(** Go through the entries of an explicit trace that could be [Hin]. *)
Ltac event_cases Hin :=
  cbn [In] in Hin;
  repeat (destruct Hin as [Hin | Hin]; [try discriminate Hin |]);
  try contradiction.

(** Name the run of [f] in the goal, split it into its paths, and read
    each path's outcome, world and trace off it. *)
Ltac run_named r :=
  let Hrun := fresh "Hrun" in
  destruct r as [[? ?] ?] eqn:Hrun; revert Hrun; run_paths;
  intros Hrun; simplify_eq.

Ltac run_pending :=
  match goal with
  | |- context [onPending ?h ?a ?b ?c ?w] => run_named (onPending h a b c w)
  end.

Ltac run_ready :=
  match goal with
  | |- context [onReady ?h ?a ?b ?c ?w] => run_named (onReady h a b c w)
  end.

Ltac run_delete :=
  match goal with
  | |- context [onDelete ?h ?a ?b ?w] => run_named (onDelete h a b w)
  end.

(** ** The loops, as maps *)

Lemma foldl_snoc_map {A B} (f : A -> B) (l : list A) (init : list B) :
  foldl (fun acc x => acc ++ [f x]) init l = init ++ map f l.
Proof.
  revert init. induction l as [|x l IH]; intros init; simpl.
  - by rewrite app_nil_r.
  - rewrite IH, <- app_assoc. reflexivity.
Qed.

Lemma extractNames_map (files : list AssetFile) :
  extractNames files = map Name files.
Proof. unfold extractNames. by rewrite foldl_snoc_map. Qed.

Lemma populateFiles_map (filenames : list string) :
  populateFiles filenames =
  map (fun filename => {| Name := filename; Metadata := None |}) filenames.
Proof. unfold populateFiles. by rewrite foldl_snoc_map. Qed.

Lemma populateFiles_names (filenames : list string) :
  map Name (populateFiles filenames) = filenames.
Proof.
  rewrite populateFiles_map, map_map. simpl. apply map_id.
Qed.

Lemma mergeMetadata_names (files : list AssetFile)
    (metadatas : list assethook.File) :
  map Name (mergeMetadata files metadatas) = map Name files.
Proof.
  unfold mergeMetadata. cbv zeta.
  rewrite (foldl_snoc_map (fun file => {| Name := Name file; Metadata := _ |})).
  simpl. rewrite map_map. reflexivity.
Qed.

(** ** Dispatch: which branch [Do] takes *)

Section Dispatch.
Context {W : Type} `{Platform W} (h : assetHandler W).
Implicit Types (instance : MetaAccessor) (spec : CommonAssetSpec)
  (status : CommonAssetStatus) (now : time.Time) (w : W).

Lemma isOnDelete_unset instance :
  GetDeletionTimestamp instance = None -> isOnDelete instance = false.
Proof. unfold isOnDelete. intros ->. reflexivity. Qed.

Lemma isOnAddOrUpdate_false instance status :
  ObservedGeneration status = GetGeneration instance ->
  isOnAddOrUpdate instance status = false.
Proof.
  unfold isOnAddOrUpdate. intros Hgen.
  by rewrite bool_decide_eq_true_2.
Qed.

Lemma isOnAddOrUpdate_true instance status :
  ObservedGeneration status <> GetGeneration instance ->
  isOnAddOrUpdate instance status = true.
Proof.
  unfold isOnAddOrUpdate. intros Hgen.
  by rewrite bool_decide_eq_false_2.
Qed.

Lemma framed_bind_defer {A} (before after : Event) (body : M W A) w :
  (emit before ;; defer (emit after) body) w
  = framed [before] [after] (body w).
Proof.
  unfold bind, defer, emit, framed, result_of, world_of, trace_of.
  destruct (body w) as [[o w1] t]. reflexivity.
Qed.

Lemma framed_log {A} (line : string) (before after : list Event)
    (body : M W A) w :
  framed before after ((logInfof line [] ;; body) w)
  = framed (before ++ [ELog (Sprintf line [])]) after (body w).
Proof.
  unfold bind, logInfof, emit, framed, result_of, world_of, trace_of.
  destruct (body w) as [[o w1] t]. simpl.
  by rewrite <- app_assoc.
Qed.

Lemma Do_onDelete now instance spec status w :
  isOnDelete instance = true ->
  Do h now instance spec status w
  = framed [start_line; ELog (Sprintf "On delete" [])] [finish_line]
      (onDelete h instance spec w).
Proof.
  intros Hdel. unfold Do, logInfof at 1 2.
  rewrite framed_bind_defer, Hdel. by rewrite framed_log.
Qed.

Lemma Do_onAddOrUpdate now instance spec status w :
  isOnDelete instance = false ->
  isOnAddOrUpdate instance status = true ->
  Do h now instance spec status w
  = (Returned
       (Some {| Phase := AssetPending;
                Reason := AssetScheduled;
                Message := Sprintf (reasonMessage AssetScheduled) [];
                LastHeartbeatTime := Now w;
                ObservedGeneration := GetGeneration instance;
                AssetRef := {| BaseURL := ""; Files := [] |} |},
        None),
     w,
     [start_line; ELog (Sprintf "On add or update" []); finish_line]).
Proof.
  intros Hdel Hgen. unfold Do, logInfof at 1 2.
  rewrite framed_bind_defer, Hdel, Hgen. reflexivity.
Qed.

Lemma Do_onReady now instance spec status w :
  isOnDelete instance = false ->
  isOnAddOrUpdate instance status = false ->
  isOnReady h status now = true ->
  Do h now instance spec status w
  = framed [start_line; ELog (Sprintf "On ready" [])] [finish_line]
      (onReady h instance spec status w).
Proof.
  intros Hdel Hgen Hready. unfold Do, logInfof at 1 2.
  rewrite framed_bind_defer, Hdel, Hgen, Hready. by rewrite framed_log.
Qed.

Lemma Do_onPending now instance spec status w :
  isOnDelete instance = false ->
  isOnAddOrUpdate instance status = false ->
  isOnReady h status now = false ->
  isOnPending h status now = true ->
  Do h now instance spec status w
  = framed [start_line; ELog (Sprintf "On pending" [])] [finish_line]
      (onPending h instance spec status w).
Proof.
  intros Hdel Hgen Hready Hpending. unfold Do, logInfof at 1 2.
  rewrite framed_bind_defer, Hdel, Hgen, Hready, Hpending.
  by rewrite framed_log.
Qed.

Lemma Do_onFailed now instance spec status w :
  isOnDelete instance = false ->
  isOnAddOrUpdate instance status = false ->
  isOnReady h status now = false ->
  isOnPending h status now = false ->
  isOnFailed status = true ->
  Do h now instance spec status w
  = framed [start_line; ELog (Sprintf "On failed" [])] [finish_line]
      (onPending h instance spec status w).
Proof.
  intros Hdel Hgen Hready Hpending Hfailed. unfold Do, logInfof at 1 2.
  rewrite framed_bind_defer, Hdel, Hgen, Hready, Hpending, Hfailed.
  by rewrite framed_log.
Qed.

Lemma Do_no_action now instance spec status w :
  isOnDelete instance = false ->
  isOnAddOrUpdate instance status = false ->
  isOnReady h status now = false ->
  isOnPending h status now = false ->
  isOnFailed status = false ->
  Do h now instance spec status w
  = (Returned (None, None), w,
     [start_line; ELog (Sprintf "Action not taken" []); finish_line]).
Proof.
  intros Hdel Hgen Hready Hpending Hfailed. unfold Do, logInfof at 1 2.
  rewrite framed_bind_defer, Hdel, Hgen, Hready, Hpending, Hfailed.
  reflexivity.
Qed.

End Dispatch.

(** ** Properties of the reconciliation state machine *)

(** C3.  When the Asset is not being deleted and the status has not yet
    observed the instance's generation, [Do] returns a Pending/Scheduled
    status carrying the instance's generation and a nil error; the run
    reaches no collaborator (it only logs) and leaves the world as it was. *)
Theorem Do_add_or_update_schedules {W} `{Platform W} (h : assetHandler W)
    (now : time.Time) (instance : MetaAccessor) (spec : CommonAssetSpec)
    (status : CommonAssetStatus) (w : W) :
  GetDeletionTimestamp instance = None ->
  ObservedGeneration status <> GetGeneration instance ->
  exists st,
    result_of (Do h now instance spec status w) = Returned (Some st, None)
    /\ Phase st = AssetPending
    /\ Reason st = AssetScheduled
    /\ ObservedGeneration st = GetGeneration instance
    /\ collaborator_calls (trace_of (Do h now instance spec status w)) = []
    /\ world_of (Do h now instance spec status w) = w.
Proof.
  intros Hdel Hgen.
  rewrite Do_onAddOrUpdate
    by auto using isOnDelete_unset, isOnAddOrUpdate_true.
  eexists. repeat split; reflexivity.
Qed.

Lemma Do_add_or_update_schedules_witness :
  GetDeletionTimestamp scenario.a1 = None
  /\ ObservedGeneration scenario.empty_status <> GetGeneration scenario.a1
  /\ exists st,
       result_of (Do (scenario.handler 100) 1050 scenario.a1 scenario.plain
                    scenario.empty_status scenario.happy)
       = Returned (Some st, None)
       /\ Phase st = AssetPending
       /\ Reason st = AssetScheduled
       /\ ObservedGeneration st = GetGeneration scenario.a1
       /\ collaborator_calls
            (trace_of (Do (scenario.handler 100) 1050 scenario.a1 scenario.plain
                         scenario.empty_status scenario.happy)) = []
       /\ world_of (Do (scenario.handler 100) 1050 scenario.a1 scenario.plain
                      scenario.empty_status scenario.happy) = scenario.happy.
Proof.
  split; [reflexivity|]. split; [discriminate|].
  apply (Do_add_or_update_schedules (scenario.handler 100) 1050 scenario.a1
           scenario.plain scenario.empty_status scenario.happy).
  - reflexivity.
  - discriminate.
Defined.

(** A sticky failure takes no branch. *)
Lemma sticky_no_action {W} `{Platform W} (h : assetHandler W)
    (now : time.Time) (instance : MetaAccessor) (spec : CommonAssetSpec)
    (status : CommonAssetStatus) (w : W) :
  GetDeletionTimestamp instance = None ->
  ObservedGeneration status = GetGeneration instance ->
  Phase status = AssetFailed ->
  Reason status = AssetValidationFailed \/ Reason status = AssetMutationFailed ->
  Do h now instance spec status w
  = (Returned (None, None), w,
     [start_line; ELog (Sprintf "Action not taken" []); finish_line]).
Proof.
  intros Hdel Hgen Hphase Hreason.
  apply Do_no_action; auto using isOnDelete_unset, isOnAddOrUpdate_false.
  - unfold isOnReady. rewrite Hphase. reflexivity.
  - unfold isOnPending. rewrite Hphase. reflexivity.
  - unfold isOnFailed. rewrite Hphase.
    destruct Hreason as [-> | ->]; reflexivity.
Qed.

(** C2.  An Asset that is not being deleted, whose status is Failed with
    reason ValidationFailed or MutationFailed and has observed the
    instance's generation: every [Do] returns no status and no error,
    whatever the instant and the world, and so does every one of any number
    of successive reconciles; once the generation differs, [Do] returns
    Pending/Scheduled again. *)
Theorem Do_sticky_failure_no_action {W} `{Platform W} (h : assetHandler W)
    (instance : MetaAccessor) (spec : CommonAssetSpec)
    (status : CommonAssetStatus) :
  GetDeletionTimestamp instance = None ->
  ObservedGeneration status = GetGeneration instance ->
  Phase status = AssetFailed ->
  Reason status = AssetValidationFailed \/ Reason status = AssetMutationFailed ->
  (forall now w,
     result_of (Do h now instance spec status w) = Returned (None, None))
  /\ (forall nows w,
        Forall (fun o => o = Returned (None, None))
          (reconcile h nows instance spec status w))
  /\ (forall now w instance',
        GetDeletionTimestamp instance' = None ->
        GetGeneration instance' <> ObservedGeneration status ->
        exists st,
          result_of (Do h now instance' spec status w) = Returned (Some st, None)
          /\ Phase st = AssetPending /\ Reason st = AssetScheduled).
Proof.
  intros Hdel Hgen Hphase Hreason. split; [|split].
  - intros now w. by rewrite sticky_no_action.
  - intros nows. induction nows as [|now nows IH]; intros w; simpl.
    + constructor.
    + rewrite sticky_no_action by assumption. simpl.
      constructor; [reflexivity|]. apply IH.
  - intros now w instance' Hdel' Hgen'.
    rewrite Do_onAddOrUpdate
      by auto using isOnDelete_unset, isOnAddOrUpdate_true.
    eexists. repeat split; reflexivity.
Qed.

Lemma Do_sticky_failure_no_action_witness :
  let failed :=
    scenario.status_of AssetFailed AssetValidationFailed 1000 1 scenario.no_ref in
  result_of (Do (scenario.handler 100) 5000 scenario.a1 scenario.plain failed
               scenario.happy) = Returned (None, None)
  /\ Forall (fun o => o = Returned (None, None))
       (reconcile (scenario.handler 100) [1010; 1200; 5000] scenario.a1
          scenario.plain failed scenario.happy).
Proof.
  intros failed.
  destruct (Do_sticky_failure_no_action (scenario.handler 100) scenario.a1
              scenario.plain failed) as (Hone & Hall & _).
  - reflexivity.
  - reflexivity.
  - reflexivity.
  - left. reflexivity.
  - split; [apply Hone | apply Hall].
Defined.

(** C5.  An Asset that is not being deleted, Pending on BucketNotReady at
    the instance's generation: strictly before
    [lastHeartbeatTime + relistInterval], [Do] returns no status and no
    error, reaches no collaborator and leaves the world as it was; from
    that instant on, [Do] runs the pending pipeline. *)
Theorem Do_bucket_not_ready_backoff {W} `{Platform W} (h : assetHandler W)
    (now : time.Time) (instance : MetaAccessor) (spec : CommonAssetSpec)
    (status : CommonAssetStatus) (w : W) :
  GetDeletionTimestamp instance = None ->
  ObservedGeneration status = GetGeneration instance ->
  Phase status = AssetPending ->
  Reason status = AssetBucketNotReady ->
  (now < LastHeartbeatTime status + relistInterval h ->
     result_of (Do h now instance spec status w) = Returned (None, None)
     /\ collaborator_calls (trace_of (Do h now instance spec status w)) = []
     /\ world_of (Do h now instance spec status w) = w)
  /\ (LastHeartbeatTime status + relistInterval h <= now ->
        Do h now instance spec status w
        = framed [start_line; ELog (Sprintf "On pending" [])] [finish_line]
            (onPending h instance spec status w)).
Proof.
  intros Hdel Hgen Hphase Hreason.
  assert (Hready : isOnReady h status now = false)
    by (unfold isOnReady; rewrite Hphase; reflexivity).
  split; intros Hnow.
  - rewrite Do_no_action; auto using isOnDelete_unset, isOnAddOrUpdate_false.
    + unfold isOnPending, time.Before, time.Add.
      rewrite Hphase, Hreason. simpl.
      by rewrite (proj2 (Z.ltb_lt _ _) Hnow).
    + unfold isOnFailed. rewrite Hphase. reflexivity.
  - apply Do_onPending; auto using isOnDelete_unset, isOnAddOrUpdate_false.
    unfold isOnPending, time.Before, time.Add.
    rewrite Hphase, Hreason. simpl.
    by rewrite (proj2 (Z.ltb_ge _ _) Hnow).
Qed.

Lemma Do_bucket_not_ready_backoff_witness :
  let blocked :=
    scenario.status_of AssetPending AssetBucketNotReady 1000 1 scenario.no_ref in
  result_of (Do (scenario.handler 100) 1099 scenario.a1 scenario.plain blocked
               scenario.happy) = Returned (None, None)
  /\ Do (scenario.handler 100) 1100 scenario.a1 scenario.plain blocked
       scenario.happy
     = framed [start_line; ELog (Sprintf "On pending" [])] [finish_line]
         (onPending (scenario.handler 100) scenario.a1 scenario.plain blocked
            scenario.happy).
Proof.
  intros blocked. split.
  - apply (Do_bucket_not_ready_backoff (scenario.handler 100) 1099 scenario.a1
             scenario.plain blocked scenario.happy);
      reflexivity.
  - apply (Do_bucket_not_ready_backoff (scenario.handler 100) 1100 scenario.a1
             scenario.plain blocked scenario.happy);
      first [reflexivity | discriminate].
Defined.

(** Entering re-verification. *)
Lemma Do_reverifies {W} `{Platform W} (h : assetHandler W)
    (now : time.Time) (instance : MetaAccessor) (spec : CommonAssetSpec)
    (status : CommonAssetStatus) (w : W) :
  GetDeletionTimestamp instance = None ->
  ObservedGeneration status = GetGeneration instance ->
  Phase status = AssetReady ->
  LastHeartbeatTime status + relistInterval h < now ->
  Do h now instance spec status w
  = framed [start_line; ELog (Sprintf "On ready" [])] [finish_line]
      (onReady h instance spec status w).
Proof.
  intros Hdel Hgen Hphase Hnow.
  apply Do_onReady; auto using isOnDelete_unset, isOnAddOrUpdate_false.
  unfold isOnReady, time.After, time.Add. rewrite Hphase. simpl.
  by apply Z.ltb_lt.
Qed.

(** C6.  Re-verification of a Ready Asset (not being deleted, generation
    observed, [now] after [lastHeartbeatTime + relistInterval]): when the
    probe finds the bucket ready and [ContainsAllObjects] answers true for
    the names recorded in [status.assetRef.files], [Do] returns, with a nil
    error, a Ready/Uploaded status whose [assetRef] (base URL and files) and
    observed generation are those of the input status and whose heartbeat is
    the current instant; when the input status already has the reason
    Uploaded and its message, the returned status is the input status with
    nothing but the heartbeat changed. *)
Theorem Do_ready_refreshes {W} `{Platform W} (h : assetHandler W)
    (now : time.Time) (instance : MetaAccessor) (spec : CommonAssetSpec)
    (status : CommonAssetStatus) (w w1 w2 : W) (bucket : CommonBucketStatus) :
  GetDeletionTimestamp instance = None ->
  ObservedGeneration status = GetGeneration instance ->
  Phase status = AssetReady ->
  LastHeartbeatTime status + relistInterval h < now ->
  findBucketStatus h (GetNamespace instance) (BucketRefName (BucketRef spec)) w
  = (Some bucket, true, None, w1) ->
  store.ContainsAllObjects (store h) (RemoteName bucket) (GetName instance)
    (map Name (Files (AssetRef status))) w1
  = (true, None, w2) ->
  result_of (Do h now instance spec status w)
  = Returned
      (Some {| Phase := AssetReady;
               Reason := AssetUploaded;
               Message := Sprintf (reasonMessage AssetUploaded) [];
               LastHeartbeatTime := Now w2;
               ObservedGeneration := ObservedGeneration status;
               AssetRef := AssetRef status |},
       None)
  /\ (Reason status = AssetUploaded ->
      Message status = Sprintf (reasonMessage AssetUploaded) [] ->
      result_of (Do h now instance spec status w)
      = Returned (Some (refreshed status (Now w2)), None)).
Proof.
  intros Hdel Hgen Hphase Hnow Hprobe Hcontains.
  rewrite Do_reverifies by assumption.
  unfold_go. rewrite Hprobe. cbn [negb].
  rewrite extractNames_map, Hcontains. cbn [negb].
  rewrite Hgen. destruct (AssetRef status) eqn:Href.
  split; [reflexivity|].
  intros Hreason Hmessage. unfold refreshed.
  by rewrite Hphase, Hreason, Hmessage, Hgen, Href.
Qed.

Lemma Do_ready_refreshes_witness :
  let ready :=
    scenario.status_of AssetReady AssetUploaded 1000 1 scenario.uploaded_ref in
  result_of (Do (scenario.handler 100) 1200 scenario.a1 scenario.plain ready
               scenario.later)
  = Returned
      (Some (scenario.status_of AssetReady AssetUploaded 1200 1
               scenario.uploaded_ref),
       None)
  /\ result_of (Do (scenario.handler 100) 1200 scenario.a1 scenario.plain ready
                  scenario.later)
     = Returned (Some (refreshed ready 1200), None).
Proof.
  intros ready.
  destruct (Do_ready_refreshes (scenario.handler 100) 1200 scenario.a1
              scenario.plain ready scenario.later scenario.later scenario.later
              {| RemoteName := "r1"; BucketURL := "http://cdn/r1" |}
              eq_refl eq_refl eq_refl eq_refl eq_refl eq_refl)
    as [Hstatus Hsame].
  split; [exact Hstatus | exact (Hsame eq_refl eq_refl)].
Defined.

(** C10.  Re-verification of a Ready Asset (not being deleted, generation
    observed, [now] after [lastHeartbeatTime + relistInterval]):
    - bucket ready and [ContainsAllObjects] answering false with no error:
      [Do] returns a Failed/MissingContent status with a nil error, and any
      later [Do] on that status runs the pending pipeline through the
      "On failed" branch;
    - [ContainsAllObjects] answering with an error: a
      Failed/RemoteContentVerificationError status with that error;
    - the bucket probe answering with an error: a Failed/BucketError status
      with that error. *)
Theorem Do_ready_missing_content {W} `{Platform W} (h : assetHandler W)
    (now : time.Time) (instance : MetaAccessor) (spec : CommonAssetSpec)
    (status : CommonAssetStatus) (w : W) :
  GetDeletionTimestamp instance = None ->
  ObservedGeneration status = GetGeneration instance ->
  Phase status = AssetReady ->
  LastHeartbeatTime status + relistInterval h < now ->
  (forall bucket w1 w2,
     findBucketStatus h (GetNamespace instance) (BucketRefName (BucketRef spec)) w
     = (Some bucket, true, None, w1) ->
     store.ContainsAllObjects (store h) (RemoteName bucket) (GetName instance)
       (map Name (Files (AssetRef status))) w1
     = (false, None, w2) ->
     exists st,
       result_of (Do h now instance spec status w) = Returned (Some st, None)
       /\ Phase st = AssetFailed
       /\ Reason st = AssetMissingContent
       /\ forall now' w',
            Do h now' instance spec st w'
            = framed [start_line; ELog (Sprintf "On failed" [])] [finish_line]
                (onPending h instance spec st w'))
  /\ (forall bucket present e w1 w2,
        findBucketStatus h (GetNamespace instance)
          (BucketRefName (BucketRef spec)) w
        = (Some bucket, true, None, w1) ->
        store.ContainsAllObjects (store h) (RemoteName bucket)
          (GetName instance) (map Name (Files (AssetRef status))) w1
        = (present, Some e, w2) ->
        exists st,
          result_of (Do h now instance spec status w)
          = Returned (Some st, Some e)
          /\ Phase st = AssetFailed
          /\ Reason st = AssetRemoteContentVerificationError)
  /\ (forall bucket ready e w1,
        findBucketStatus h (GetNamespace instance)
          (BucketRefName (BucketRef spec)) w
        = (bucket, ready, Some e, w1) ->
        exists st,
          result_of (Do h now instance spec status w)
          = Returned (Some st, Some e)
          /\ Phase st = AssetFailed
          /\ Reason st = AssetBucketError).
Proof.
  intros Hdel Hgen Hphase Hnow.
  rewrite Do_reverifies by assumption.
  split; [|split].
  - intros bucket w1 w2 Hprobe Hcontains.
    unfold_go. rewrite Hprobe. cbn [negb].
    rewrite extractNames_map, Hcontains. cbn [negb].
    eexists. split; [reflexivity|]. split; [reflexivity|].
    split; [reflexivity|].
    intros now' w'.
    rewrite Do_onFailed; auto using isOnDelete_unset.
    apply isOnAddOrUpdate_false. reflexivity.
  - intros bucket present e w1 w2 Hprobe Hcontains.
    unfold_go. rewrite Hprobe. cbn [negb].
    rewrite extractNames_map, Hcontains.
    eexists. repeat split; reflexivity.
  - intros bucket ready e w1 Hprobe.
    unfold_go. rewrite Hprobe.
    eexists. repeat split; reflexivity.
Qed.

Lemma Do_ready_missing_content_witness :
  let ready :=
    scenario.status_of AssetReady AssetUploaded 1000 1 scenario.uploaded_ref in
  let drifted := scenario.drifted in
  exists st,
    result_of (Do (scenario.handler 100) 1200 scenario.a1 scenario.plain ready
                 drifted) = Returned (Some st, None)
    /\ Phase st = AssetFailed
    /\ Reason st = AssetMissingContent
    /\ forall now' w',
         Do (scenario.handler 100) now' scenario.a1 scenario.plain st w'
         = framed [start_line; ELog (Sprintf "On failed" [])] [finish_line]
             (onPending (scenario.handler 100) scenario.a1 scenario.plain st w').
Proof.
  intros ready drifted.
  destruct (Do_ready_missing_content (scenario.handler 100) 1200 scenario.a1
              scenario.plain ready drifted eq_refl eq_refl eq_refl eq_refl)
    as (Hmissing & _ & _).
  exact (Hmissing {| RemoteName := "r1"; BucketURL := "http://cdn/r1" |}
           drifted drifted eq_refl eq_refl).
Defined.

(** ** The branches, path by path *)

Section Branches.
Context {W : Type} `{Platform W} (h : assetHandler W).
Implicit Types (object instance : MetaAccessor) (spec : CommonAssetSpec)
  (status : CommonAssetStatus) (now : time.Time) (w : W).

Lemma result_of_framed {A} (before after : list Event)
    (r : Outcome A * W * list Event) :
  result_of (framed before after r) = result_of r.
Proof. reflexivity. Qed.

Lemma trace_of_framed {A} (before after : list Event)
    (r : Outcome A * W * list Event) :
  trace_of (framed before after r) = before ++ trace_of r ++ after.
Proof. reflexivity. Qed.

(** [Do] is one of its six branches between its two log lines. *)
Lemma Do_cases now instance spec status w :
  (isOnDelete instance = true
   /\ Do h now instance spec status w
      = framed [start_line; ELog (Sprintf "On delete" [])] [finish_line]
          (onDelete h instance spec w))
  \/ (isOnDelete instance = false
      /\ exists line,
           Do h now instance spec status w
           = framed [start_line; ELog line] [finish_line]
               (onReady h instance spec status w))
  \/ (isOnDelete instance = false
      /\ exists line,
           Do h now instance spec status w
           = framed [start_line; ELog line] [finish_line]
               (onPending h instance spec status w))
  \/ (isOnDelete instance = false
      /\ exists answer line,
           Do h now instance spec status w
           = (Returned answer, w, [start_line; ELog line; finish_line])).
Proof.
  destruct (isOnDelete instance) eqn:Hdel.
  { left. split; [reflexivity|]. by apply Do_onDelete. }
  right.
  destruct (isOnAddOrUpdate instance status) eqn:Hgen.
  { right. right. split; [reflexivity|]. do 2 eexists.
    by apply Do_onAddOrUpdate. }
  destruct (isOnReady h status now) eqn:Hready.
  { left. split; [reflexivity|]. eexists. by apply Do_onReady. }
  right.
  destruct (isOnPending h status now) eqn:Hpending.
  { left. split; [reflexivity|]. eexists. by apply Do_onPending. }
  destruct (isOnFailed status) eqn:Hfailed.
  { left. split; [reflexivity|]. eexists. by apply Do_onFailed. }
  right. split; [reflexivity|]. do 2 eexists. by apply Do_no_action.
Qed.

Lemma onReady_calls object spec status w :
  forallb ready_call (trace_of (onReady h object spec status w)) = true.
Proof. run_paths; reflexivity. Qed.

Lemma onDelete_calls object spec w :
  forallb delete_call (trace_of (onDelete h object spec w)) = true.
Proof. run_paths; reflexivity. Qed.

Lemma not_among (allowed : Event -> bool) (e : Event) (tr : list Event) :
  forallb allowed tr = true -> allowed e = false -> ~ In e tr.
Proof.
  intros Hall He Hin. rewrite forallb_forall in Hall.
  specialize (Hall e Hin). congruence.
Qed.

Lemma in_framed_log (e line0 line1 line2 : Event) (tr : list Event) :
  is_log e = false ->
  is_log line0 = true -> is_log line1 = true -> is_log line2 = true ->
  In e ([line0; line1] ++ tr ++ [line2]) -> In e tr.
Proof.
  intros He H0 H1 H2 Hin. simpl in Hin.
  destruct Hin as [<- | [<- | Hin]]; [congruence .. |].
  apply in_app_or in Hin. destruct Hin as [Hin | [<- | []]];
    [assumption | congruence].
Qed.

(** A call that only the pending pipeline makes was made by it. *)
Lemma Do_pipeline_call now instance spec status w (e : Event) :
  is_log e = false -> ready_call e = false -> delete_call e = false ->
  In e (trace_of (Do h now instance spec status w)) ->
  In e (trace_of (onPending h instance spec status w))
  /\ result_of (Do h now instance spec status w)
     = result_of (onPending h instance spec status w).
Proof.
  intros Hlog Hready Hdelete Hin.
  destruct (Do_cases now instance spec status w)
    as [[_ HDo] | [[_ [line HDo]] | [[_ [line HDo]] | [_ (a & line & HDo)]]]];
    rewrite HDo in *.
  - rewrite trace_of_framed in Hin.
    apply in_framed_log in Hin; try reflexivity; [|assumption].
    exfalso. eapply not_among; eauto using onDelete_calls.
  - rewrite trace_of_framed in Hin.
    apply in_framed_log in Hin; try reflexivity; [|assumption].
    exfalso. eapply not_among; eauto using onReady_calls.
  - rewrite trace_of_framed in Hin.
    apply in_framed_log in Hin; try reflexivity; [|assumption].
    split; [assumption | reflexivity].
  - exfalso. unfold trace_of in Hin. simpl in Hin.
    destruct Hin as [<- | [<- | [<- | []]]]; discriminate.
Qed.

End Branches.

(** ** The pending pipeline *)

(** A run of the pending pipeline without a failed stage ends Ready. *)
Lemma onPending_success {W} `{Platform W} (h : assetHandler W)
    (object : MetaAccessor) (spec : CommonAssetSpec)
    (status : CommonAssetStatus) (w : W) :
  forallb stage_succeeded (trace_of (onPending h object spec status w)) = true ->
  exists bucket basePath filenames st,
    In (EFindBucketStatus (GetNamespace object) (BucketRefName (BucketRef spec))
          (Some bucket, true, None))
       (trace_of (onPending h object spec status w))
    /\ In (ELoad (URL (Source spec)) (GetName object) (Mode (Source spec))
             (Filter (Source spec)) (basePath, filenames, None))
          (trace_of (onPending h object spec status w))
    /\ result_of (onPending h object spec status w) = Returned (Some st, None)
    /\ Phase st = AssetReady
    /\ Reason st = AssetUploaded
    /\ BaseURL (AssetRef st) = BucketURL bucket +:+ "/" +:+ GetName object
    /\ map Name (Files (AssetRef st)) = filenames.
Proof.
  run_paths.
  all: cbn [forallb stage_succeeded andb];
    repeat match goal with
           | Hs : assethook.Success _ = _ |- _ => rewrite Hs
           end;
    cbn [andb]; repeat split_run; intros Hok; try discriminate Hok.
  all: do 4 eexists; split; [find_event|]; split; [find_event|];
    split; [reflexivity|]; cbn [Phase Reason AssetRef BaseURL Files];
    rewrite ?mergeMetadata_names, ?populateFiles_names; auto.
Qed.

Lemma in_framed {A W} (e : Event) (before after : list Event)
    (r : Outcome A * W * list Event) :
  In e (trace_of r) -> In e (trace_of (framed before after r)).
Proof.
  intros Hin. rewrite trace_of_framed.
  apply in_or_app. right. apply in_or_app. by left.
Qed.

(** C1.  A reconcile of an Asset that is not being deleted, at the
    generation its status has observed, Pending and not backed off on
    BucketNotReady, in which every stage succeeds (probe ready, cleanup,
    load, the configured webhooks, upload): [Do] returns, with a nil error,
    a Ready/Uploaded status whose base URL is the bucket's URL, a slash and
    the Asset's name, and whose files carry the names the loader returned,
    one each, in the same order. *)
Theorem Do_pending_pipeline_uploads {W} `{Platform W} (h : assetHandler W)
    (now : time.Time) (instance : MetaAccessor) (spec : CommonAssetSpec)
    (status : CommonAssetStatus) (w : W) :
  GetDeletionTimestamp instance = None ->
  ObservedGeneration status = GetGeneration instance ->
  Phase status = AssetPending ->
  ~ (Reason status = AssetBucketNotReady
     /\ now < LastHeartbeatTime status + relistInterval h) ->
  Forall (fun e => stage_succeeded e = true)
    (trace_of (Do h now instance spec status w)) ->
  exists bucket basePath filenames st,
    In (EFindBucketStatus (GetNamespace instance)
          (BucketRefName (BucketRef spec)) (Some bucket, true, None))
       (trace_of (Do h now instance spec status w))
    /\ In (ELoad (URL (Source spec)) (GetName instance) (Mode (Source spec))
             (Filter (Source spec)) (basePath, filenames, None))
          (trace_of (Do h now instance spec status w))
    /\ result_of (Do h now instance spec status w) = Returned (Some st, None)
    /\ Phase st = AssetReady
    /\ Reason st = AssetUploaded
    /\ BaseURL (AssetRef st) = BucketURL bucket +:+ "/" +:+ GetName instance
    /\ map Name (Files (AssetRef st)) = filenames.
Proof.
  intros Hdel Hgen Hphase Hbackoff Hok.
  assert (HDo : Do h now instance spec status w
                = framed [start_line; ELog (Sprintf "On pending" [])]
                    [finish_line] (onPending h instance spec status w)).
  { apply Do_onPending; auto using isOnDelete_unset, isOnAddOrUpdate_false.
    - unfold isOnReady. rewrite Hphase. reflexivity.
    - unfold isOnPending, time.Before, time.Add. rewrite Hphase. simpl.
      destruct (bool_decide (Reason status = AssetBucketNotReady)) eqn:Hreason;
        [|reflexivity].
      apply bool_decide_eq_true_1 in Hreason. simpl.
      destruct (Z.ltb_spec now (LastHeartbeatTime status + relistInterval h));
        [|reflexivity].
      exfalso. apply Hbackoff. by split. }
  rewrite HDo in *. rewrite trace_of_framed in Hok.
  apply Forall_app in Hok as [_ Hok]. apply Forall_app in Hok as [Hok _].
  assert (Hall : forallb stage_succeeded
                   (trace_of (onPending h instance spec status w)) = true).
  { apply forallb_forall. intros e He.
    rewrite Forall_forall in Hok. apply Hok. by apply list_elem_of_In. }
  destruct (onPending_success h instance spec status w Hall)
    as (bucket & basePath & filenames & st & Hprobe & Hload & Hres & Hrest).
  exists bucket, basePath, filenames, st.
  split; [by apply in_framed|]. split; [by apply in_framed|].
  split; [by rewrite result_of_framed|]. exact Hrest.
Qed.

Lemma Do_pending_pipeline_uploads_witness :
  exists st,
    result_of (Do (scenario.handler 100) 1050 scenario.a1 scenario.plain
                 scenario.scheduled scenario.happy)
    = Returned (Some st, None)
    /\ Phase st = AssetReady
    /\ Reason st = AssetUploaded
    /\ BaseURL (AssetRef st) = "http://cdn/r1/a1"
    /\ map Name (Files (AssetRef st)) = ["a.md"; "b.md"].
Proof.
  destruct (Do_pending_pipeline_uploads (scenario.handler 100) 1050 scenario.a1
              scenario.plain scenario.scheduled scenario.happy)
    as (bucket & basePath & filenames & st & Hprobe & Hload & Hrest).
  - reflexivity.
  - reflexivity.
  - reflexivity.
  - intros [Hreason _]. discriminate Hreason.
  - apply Forall_forall. intros e He. apply list_elem_of_In in He.
    vm_compute in He.
    repeat (destruct He as [<- | He]; [reflexivity|]). destruct He.
  - exists st.
    vm_compute in Hprobe.
    repeat (destruct Hprobe as [Hprobe | Hprobe]; [try discriminate Hprobe|]);
      [|destruct Hprobe].
    vm_compute in Hload.
    repeat (destruct Hload as [Hload | Hload]; [try discriminate Hload|]);
      [|destruct Hload].
    injection Hprobe as <-. injection Hload as <- <-.
    exact Hrest.
Defined.

(** What the pending pipeline answers when a webhook fails. *)
Lemma onPending_webhook_failures {W} `{Platform W} (h : assetHandler W)
    (object : MetaAccessor) (spec : CommonAssetSpec)
    (status : CommonAssetStatus) (w : W) :
  (forall basePath files services result e,
     In (EMutate basePath files services (result, Some e))
        (trace_of (onPending h object spec status w)) ->
     exists st,
       result_of (onPending h object spec status w)
       = Returned (Some st, Some e)
       /\ Phase st = AssetFailed /\ Reason st = AssetMutationError)
  /\ (forall basePath files services result,
        In (EMutate basePath files services (result, None))
           (trace_of (onPending h object spec status w)) ->
        assethook.Success result = false ->
        exists st,
          result_of (onPending h object spec status w)
          = Returned (Some st, None)
          /\ Phase st = AssetFailed /\ Reason st = AssetMutationFailed)
  /\ (forall basePath files services result e,
        In (EValidate basePath files services (result, Some e))
           (trace_of (onPending h object spec status w)) ->
        exists st,
          result_of (onPending h object spec status w)
          = Returned (Some st, Some e)
          /\ Phase st = AssetFailed /\ Reason st = AssetValidationError)
  /\ (forall basePath files services result,
        In (EValidate basePath files services (result, None))
           (trace_of (onPending h object spec status w)) ->
        assethook.Success result = false ->
        exists st,
          result_of (onPending h object spec status w)
          = Returned (Some st, None)
          /\ Phase st = AssetFailed /\ Reason st = AssetValidationFailed).
Proof.
  run_paths.
  all: repeat split; intros; 
    match goal with
    | Hin : In _ _ |- _ => event_cases Hin; simplify_eq
    end;
    first [congruence | eexists; repeat split; reflexivity].
Qed.

(** C4.  In any reconcile:
    - a mutator call that returns a transport error makes [Do] return a
      Failed/MutationError status together with that error;
    - a mutator call that returns no error and [success = false] makes [Do]
      return a Failed/MutationFailed status together with a nil error;
    - the validator likewise, with ValidationError and ValidationFailed. *)
Theorem Do_webhook_failures {W} `{Platform W} (h : assetHandler W)
    (now : time.Time) (instance : MetaAccessor) (spec : CommonAssetSpec)
    (status : CommonAssetStatus) (w : W) :
  (forall basePath files services result e,
     In (EMutate basePath files services (result, Some e))
        (trace_of (Do h now instance spec status w)) ->
     exists st,
       result_of (Do h now instance spec status w) = Returned (Some st, Some e)
       /\ Phase st = AssetFailed /\ Reason st = AssetMutationError)
  /\ (forall basePath files services result,
        In (EMutate basePath files services (result, None))
           (trace_of (Do h now instance spec status w)) ->
        assethook.Success result = false ->
        exists st,
          result_of (Do h now instance spec status w) = Returned (Some st, None)
          /\ Phase st = AssetFailed /\ Reason st = AssetMutationFailed)
  /\ (forall basePath files services result e,
        In (EValidate basePath files services (result, Some e))
           (trace_of (Do h now instance spec status w)) ->
        exists st,
          result_of (Do h now instance spec status w)
          = Returned (Some st, Some e)
          /\ Phase st = AssetFailed /\ Reason st = AssetValidationError)
  /\ (forall basePath files services result,
        In (EValidate basePath files services (result, None))
           (trace_of (Do h now instance spec status w)) ->
        assethook.Success result = false ->
        exists st,
          result_of (Do h now instance spec status w) = Returned (Some st, None)
          /\ Phase st = AssetFailed /\ Reason st = AssetValidationFailed).
Proof.
  destruct (onPending_webhook_failures h instance spec status w)
    as (Hme & Hmf & Hve & Hvf).
  repeat split; intros.
  - edestruct (Do_pipeline_call h now instance spec status w) as [Hin ->];
      [| | | eassumption |]; try reflexivity. eauto.
  - edestruct (Do_pipeline_call h now instance spec status w) as [Hin ->];
      [| | | eassumption |]; try reflexivity. eauto.
  - edestruct (Do_pipeline_call h now instance spec status w) as [Hin ->];
      [| | | eassumption |]; try reflexivity. eauto.
  - edestruct (Do_pipeline_call h now instance spec status w) as [Hin ->];
      [| | | eassumption |]; try reflexivity. eauto.
Qed.

Lemma Do_webhook_failures_witness :
  (exists st,
     result_of (Do (scenario.handler 100) 1050 scenario.a1
                  (scenario.spec_of ["http://m"] [] []) scenario.scheduled
                  scenario.mutator_down)
     = Returned (Some st, Some "timeout")
     /\ Phase st = AssetFailed /\ Reason st = AssetMutationError)
  /\ (exists st,
        result_of (Do (scenario.handler 100) 1050 scenario.a1
                     (scenario.spec_of [] ["http://v"] []) scenario.scheduled
                     scenario.rejected)
        = Returned (Some st, None)
        /\ Phase st = AssetFailed /\ Reason st = AssetValidationFailed).
Proof.
  split.
  - destruct (Do_webhook_failures (scenario.handler 100) 1050 scenario.a1
                (scenario.spec_of ["http://m"] [] []) scenario.scheduled
                scenario.mutator_down) as (Hme & _).
    apply (Hme "/tmp/w" ["a.md"; "b.md"] ["http://m"] scenario.ok "timeout").
    vm_compute. tauto.
  - destruct (Do_webhook_failures (scenario.handler 100) 1050 scenario.a1
                (scenario.spec_of [] ["http://v"] []) scenario.scheduled
                scenario.rejected) as (_ & _ & _ & Hvf).
    apply (Hvf "/tmp/w" ["a.md"; "b.md"] ["http://v"]
             {| assethook.Success := false; assethook.Messages := "bad" |}).
    + vm_compute. tauto.
    + reflexivity.
Defined.

(** ** The workspace *)

Lemma workspace_released_after (tr : list Event) :
  workspace_released tr ->
  forall pre post src assetName mode filter basePath filenames err,
    tr = pre ++ ELoad src assetName mode filter (basePath, filenames, err) :: post ->
    exists mid, post = mid ++ [EClean basePath].
Proof.
  intros Hrel pre. revert tr Hrel.
  induction pre as [|e pre IH]; intros tr Hrel post src assetName mode filter
    basePath filenames err ->.
  - simpl in Hrel. destruct Hrel as [Hlast _].
    by apply last_Some in Hlast.
  - eapply IH; [|reflexivity].
    simpl in Hrel.
    destruct e as [| | | | | | | ? ? ? ? [[? ?] ?] | | | |]; try exact Hrel.
    apply Hrel.
Qed.

Lemma onPending_releases {W} `{Platform W} (h : assetHandler W)
    (object : MetaAccessor) (spec : CommonAssetSpec)
    (status : CommonAssetStatus) (w : W) :
  workspace_released (trace_of (onPending h object spec status w)).
Proof.
  run_paths; cbn [workspace_released last]; auto.
Qed.

(** C7.  In every run of the pending pipeline, whatever the way it is left
    (load error, webhook or metadata failure, upload failure, success): a
    call of [Loader.Load] is followed, within the run, by a call of
    [Loader.Clean] on the path that [Load] returned, and that call is the
    last one the pipeline makes. *)
Theorem onPending_cleans_workspace {W} `{Platform W} (h : assetHandler W)
    (object : MetaAccessor) (spec : CommonAssetSpec)
    (status : CommonAssetStatus) (w : W)
    (pre post : list Event) (src assetName mode filter basePath : string)
    (filenames : list string) (err : option error) :
  trace_of (onPending h object spec status w)
  = pre ++ ELoad src assetName mode filter (basePath, filenames, err) :: post ->
  exists mid, post = mid ++ [EClean basePath].
Proof.
  intros Htrace.
  eapply workspace_released_after; [|exact Htrace].
  apply onPending_releases.
Qed.

Lemma onPending_cleans_workspace_witness :
  exists mid,
    [EEventf scenario.a1 "Warning" AssetPullingFailed "%s" ["unreachable"];
     EClean "/tmp/w"]
    = mid ++ [EClean "/tmp/w"].
Proof.
  apply (onPending_cleans_workspace (scenario.handler 100) scenario.a1
           scenario.plain scenario.scheduled scenario.load_fails
           [ELog "Checking if bucket %s is ready b1";
            EFindBucketStatus "default" "b1"
              (Some {| RemoteName := "r1"; BucketURL := "http://cdn/r1" |},
               true, None);
            ELog "Bucket %s is ready b1";
            ELog "Checking if bucket contains files for asset";
            EListObjects "r1" "a1" ([], None);
            ELog "Bucket doesn't contains asset files, nothing to delete";
            ELog "Loading files from %s http://x/a.zip"]
           _ "http://x/a.zip" "a1" "package" "" "/tmp/w" [] (Some "unreachable")).
  reflexivity.
Defined.

(** ** Remote cleanup failures *)

Lemma onPending_delete_failure {W} `{Platform W} (h : assetHandler W)
    (object : MetaAccessor) (spec : CommonAssetSpec)
    (status : CommonAssetStatus) (w : W) (bucketName prefix : string)
    (e : error) :
  In (EDeleteObjects bucketName prefix (Some e))
     (trace_of (onPending h object spec status w)) ->
  exists st,
    result_of (onPending h object spec status w)
    = Returned (Some st, Some (errors.Wrap e "while deleting asset content"))
    /\ Phase st = AssetFailed /\ Reason st = AssetCleanupError.
Proof.
  run_paths.
  all: intros Hin; event_cases Hin; simplify_eq.
  all: eexists; repeat split; reflexivity.
Qed.

Lemma onDelete_delete_failure {W} `{Platform W} (h : assetHandler W)
    (object : MetaAccessor) (spec : CommonAssetSpec) (w : W)
    (bucketName prefix : string) (e : error) :
  In (EDeleteObjects bucketName prefix (Some e))
     (trace_of (onDelete h object spec w)) ->
  result_of (onDelete h object spec w)
  = Returned (None, Some (errors.Wrap e "while deleting asset content"))
  /\ warning_reasons (trace_of (onDelete h object spec w)) = [].
Proof.
  run_paths.
  all: intros Hin; event_cases Hin; simplify_eq.
  all: split; reflexivity.
Qed.

Lemma warning_reasons_framed_log {W A} (line0 line1 line2 : string)
    (r : Outcome A * W * list Event) :
  warning_reasons (trace_of (framed [ELog line0; ELog line1] [ELog line2] r))
  = warning_reasons (trace_of r).
Proof.
  rewrite trace_of_framed. simpl.
  induction (trace_of r) as [|e tr IH]; [reflexivity|].
  simpl. destruct e; try exact IH.
  destruct (String.eqb eventType "Warning"); [by rewrite IH | exact IH].
Qed.

(** C9, as the code has it.  When the bulk [DeleteObjects] call fails (it is
    only made after listing the prefix succeeded with a non-empty answer):
    in the pending pipeline [Do] returns a Failed/CleanupError status with
    the wrapped error; in the OnDelete path [Do] returns no status, the
    wrapped error, and records no Warning event. *)
Theorem Do_delete_failure {W} `{Platform W} (h : assetHandler W)
    (now : time.Time) (instance : MetaAccessor) (spec : CommonAssetSpec)
    (status : CommonAssetStatus) (w : W) (bucketName prefix : string)
    (e : error) :
  In (EDeleteObjects bucketName prefix (Some e))
     (trace_of (Do h now instance spec status w)) ->
  if isOnDelete instance then
    result_of (Do h now instance spec status w)
    = Returned (None, Some (errors.Wrap e "while deleting asset content"))
    /\ warning_reasons (trace_of (Do h now instance spec status w)) = []
  else
    exists st,
      result_of (Do h now instance spec status w)
      = Returned (Some st, Some (errors.Wrap e "while deleting asset content"))
      /\ Phase st = AssetFailed /\ Reason st = AssetCleanupError.
Proof.
  intros Hin.
  destruct (Do_cases h now instance spec status w)
    as [[Hdel HDo] | [[Hdel [line HDo]] | [[Hdel [line HDo]]
        | [Hdel (a & line & HDo)]]]];
    rewrite Hdel, HDo in *.
  - rewrite trace_of_framed in Hin.
    apply in_framed_log in Hin; try reflexivity.
    unfold start_line, finish_line.
    rewrite warning_reasons_framed_log, result_of_framed.
    by apply onDelete_delete_failure in Hin.
  - rewrite trace_of_framed in Hin.
    apply in_framed_log in Hin; try reflexivity.
    exfalso.
    eapply (not_among ready_call); [apply onReady_calls | | exact Hin].
    reflexivity.
  - rewrite trace_of_framed in Hin.
    apply in_framed_log in Hin; try reflexivity.
    rewrite result_of_framed.
    by apply onPending_delete_failure in Hin.
  - exfalso. unfold trace_of in Hin. simpl in Hin.
    destruct Hin as [Hin | [Hin | [Hin | []]]]; discriminate Hin.
Qed.

Lemma Do_delete_failure_witness :
  (result_of (Do (scenario.handler 100) 1050 scenario.a1_deleted scenario.plain
                scenario.scheduled scenario.delete_fails)
   = Returned (None, Some "while deleting asset content: boom")
   /\ warning_reasons
        (trace_of (Do (scenario.handler 100) 1050 scenario.a1_deleted
                     scenario.plain scenario.scheduled scenario.delete_fails))
      = [])
  /\ exists st,
       result_of (Do (scenario.handler 100) 1050 scenario.a1 scenario.plain
                    scenario.scheduled scenario.delete_fails)
       = Returned (Some st, Some "while deleting asset content: boom")
       /\ Phase st = AssetFailed /\ Reason st = AssetCleanupError.
Proof.
  split.
  - apply (Do_delete_failure (scenario.handler 100) 1050 scenario.a1_deleted
             scenario.plain scenario.scheduled scenario.delete_fails
             "r1" "a1" "boom").
    vm_compute. tauto.
  - apply (Do_delete_failure (scenario.handler 100) 1050 scenario.a1
             scenario.plain scenario.scheduled scenario.delete_fails
             "r1" "a1" "boom").
    vm_compute. tauto.
Defined.

(** C9, as stated, fails in the OnDelete path: the prefix lists two objects,
    the bulk delete fails, and [Do] returns no status at all; nothing in
    the run carries the reason CleanupError. *)
Lemma OnDelete_failure_not_CleanupError :
  In (EListObjects "r1" "a1" (["a1/a.md"; "a1/b.md"], None))
     (trace_of (Do (scenario.handler 100) 1050 scenario.a1_deleted
                  scenario.plain scenario.scheduled scenario.delete_fails))
  /\ In (EDeleteObjects "r1" "a1" (Some "boom"))
        (trace_of (Do (scenario.handler 100) 1050 scenario.a1_deleted
                     scenario.plain scenario.scheduled scenario.delete_fails))
  /\ ~ surfaced_as AssetCleanupError
         (result_of (Do (scenario.handler 100) 1050 scenario.a1_deleted
                       scenario.plain scenario.scheduled scenario.delete_fails))
  /\ ~ In AssetCleanupError
         (warning_reasons
            (trace_of (Do (scenario.handler 100) 1050 scenario.a1_deleted
                         scenario.plain scenario.scheduled
                         scenario.delete_fails))).
Proof.
  split; [vm_compute; tauto|]. split; [vm_compute; tauto|]. split.
  - intros (st & e & Hres & _). vm_compute in Hres. discriminate Hres.
  - vm_compute. tauto.
Qed.

(** ** Warning events against the returned reason *)

(** A Failed status out of the pending pipeline comes with exactly one
    Warning event; the event carries the status' reason on every exit but
    the mutator's transport error, where the event says MutationFailed and
    the status MutationError. *)
Lemma onPending_warning_reason {W} `{Platform W} (h : assetHandler W)
    (object : MetaAccessor) (spec : CommonAssetSpec)
    (status : CommonAssetStatus) (w : W) (st : CommonAssetStatus)
    (err : option error) :
  result_of (onPending h object spec status w) = Returned (Some st, err) ->
  Phase st = AssetFailed ->
  warning_reasons (trace_of (onPending h object spec status w))
  = [if decide (Reason st = AssetMutationError) then AssetMutationFailed
     else Reason st].
Proof.
  run_paths.
  all: intros Hres Hphase; simplify_eq; try discriminate Hphase.
  all: reflexivity.
Qed.

(** C8 at the mutator's transport error (scenario 6): the only Warning
    event of the run carries MutationFailed, the returned status carries
    MutationError. *)
Theorem mutator_error_warning_reason :
  warning_reasons
    (trace_of (Do (scenario.handler 100) 1050 scenario.a1
                 (scenario.spec_of ["http://m"] [] []) scenario.scheduled
                 scenario.mutator_down))
  = [AssetMutationFailed]
  /\ exists st,
       result_of (Do (scenario.handler 100) 1050 scenario.a1
                    (scenario.spec_of ["http://m"] [] []) scenario.scheduled
                    scenario.mutator_down)
       = Returned (Some st, Some "timeout")
       /\ Phase st = AssetFailed
       /\ Reason st = AssetMutationError.
Proof.
  split; [reflexivity|]. eexists. repeat split; reflexivity.
Qed.

(** ** What [Do] answers *)

(** The branch [Do] takes, with the predicates that chose it. *)
Lemma Do_branch {W} `{Platform W} (h : assetHandler W)
    (now : time.Time) (instance : MetaAccessor) (spec : CommonAssetSpec)
    (status : CommonAssetStatus) (w : W) :
  (isOnDelete instance = true
   /\ Do h now instance spec status w
      = framed [start_line; ELog (Sprintf "On delete" [])] [finish_line]
          (onDelete h instance spec w))
  \/ (isOnDelete instance = false
      /\ isOnAddOrUpdate instance status = true
      /\ Do h now instance spec status w
         = (Returned
              (Some {| Phase := AssetPending;
                       Reason := AssetScheduled;
                       Message := Sprintf (reasonMessage AssetScheduled) [];
                       LastHeartbeatTime := Now w;
                       ObservedGeneration := GetGeneration instance;
                       AssetRef := {| BaseURL := ""; Files := [] |} |},
               None),
            w,
            [start_line; ELog (Sprintf "On add or update" []); finish_line]))
  \/ (isOnDelete instance = false
      /\ isOnAddOrUpdate instance status = false
      /\ isOnReady h status now = true
      /\ Do h now instance spec status w
         = framed [start_line; ELog (Sprintf "On ready" [])] [finish_line]
             (onReady h instance spec status w))
  \/ (isOnDelete instance = false
      /\ isOnAddOrUpdate instance status = false
      /\ isOnReady h status now = false
      /\ (isOnPending h status now = true \/ isOnFailed status = true)
      /\ exists line,
           Do h now instance spec status w
           = framed [start_line; ELog line] [finish_line]
               (onPending h instance spec status w))
  \/ (isOnDelete instance = false
      /\ isOnAddOrUpdate instance status = false
      /\ isOnReady h status now = false
      /\ isOnPending h status now = false
      /\ isOnFailed status = false
      /\ Do h now instance spec status w
         = (Returned (None, None), w,
            [start_line; ELog (Sprintf "Action not taken" []); finish_line])).
Proof.
  destruct (isOnDelete instance) eqn:Hdel.
  { left. split; [reflexivity|]. by apply Do_onDelete. }
  right.
  destruct (isOnAddOrUpdate instance status) eqn:Hgen.
  { left. do 2 (split; [reflexivity|]). by apply Do_onAddOrUpdate. }
  right.
  destruct (isOnReady h status now) eqn:Hready.
  { left. do 3 (split; [reflexivity|]). by apply Do_onReady. }
  right.
  destruct (isOnPending h status now) eqn:Hpending.
  { left. do 3 (split; [reflexivity|]). split; [by left|].
    eexists. by apply Do_onPending. }
  destruct (isOnFailed status) eqn:Hfailed.
  { left. do 3 (split; [reflexivity|]). split; [by right|].
    eexists. by apply Do_onFailed. }
  right. do 5 (split; [reflexivity|]). by apply Do_no_action.
Qed.

Lemma onPending_answer {W} `{Platform W} (h : assetHandler W)
    (object : MetaAccessor) (spec : CommonAssetSpec)
    (status : CommonAssetStatus) (w : W) (a : Answer) :
  result_of (onPending h object spec status w) = Returned a ->
  consistent a = true
  /\ exists st, a.1 = Some st /\ ObservedGeneration st = GetGeneration object.
Proof.
  run_pending.
  all: intros Hres; simplify_eq.
  all: split; [reflexivity | eexists; split; reflexivity].
Qed.

Lemma onReady_answer {W} `{Platform W} (h : assetHandler W)
    (object : MetaAccessor) (spec : CommonAssetSpec)
    (status : CommonAssetStatus) (w : W) (a : Answer) :
  result_of (onReady h object spec status w) = Returned a ->
  consistent a = true
  /\ exists st, a.1 = Some st /\ ObservedGeneration st = GetGeneration object.
Proof.
  run_ready.
  all: intros Hres; simplify_eq.
  all: split; [reflexivity | eexists; split; reflexivity].
Qed.

Lemma onDelete_answer {W} `{Platform W} (h : assetHandler W)
    (object : MetaAccessor) (spec : CommonAssetSpec) (w : W) (a : Answer) :
  result_of (onDelete h object spec w) = Returned a -> a.1 = None.
Proof.
  run_delete.
  all: intros Hres; simplify_eq; reflexivity.
Qed.

(** Every answer of [Do]: consistent, and a status at the instance's
    generation. *)
Lemma Do_answer {W} `{Platform W} (h : assetHandler W)
    (now : time.Time) (instance : MetaAccessor) (spec : CommonAssetSpec)
    (status : CommonAssetStatus) (w : W) (a : Answer) :
  result_of (Do h now instance spec status w) = Returned a ->
  consistent a = true
  /\ forall st, a.1 = Some st ->
       ObservedGeneration st = GetGeneration instance.
Proof.
  destruct (Do_branch h now instance spec status w)
    as [(_ & ->) | [(_ & _ & ->) | [(_ & _ & _ & ->)
        | [(_ & _ & _ & _ & line & ->) | (_ & _ & _ & _ & _ & ->)]]]];
    rewrite ?result_of_framed; intros Hres.
  - apply onDelete_answer in Hres. destruct a as [[st|] err]; [discriminate|].
    split; [reflexivity | discriminate].
  - unfold result_of in Hres. simpl in Hres. simplify_eq.
    split; [reflexivity|]. intros st [= <-]. reflexivity.
  - apply onReady_answer in Hres as (Hok & st & Hst & Hgen).
    split; [exact Hok|]. intros st' Hst'. congruence.
  - apply onPending_answer in Hres as (Hok & st & Hst & Hgen).
    split; [exact Hok|]. intros st' Hst'. congruence.
  - unfold result_of in Hres. simpl in Hres. simplify_eq.
    split; [reflexivity | discriminate].
Qed.

(** X1.  Whatever the branch, a status returned by [Do] carries the
    generation of the instance it was called with. *)
Theorem Do_status_generation {W} `{Platform W} (h : assetHandler W)
    (now : time.Time) (instance : MetaAccessor) (spec : CommonAssetSpec)
    (status : CommonAssetStatus) (w : W) (st : CommonAssetStatus)
    (err : option error) :
  result_of (Do h now instance spec status w) = Returned (Some st, err) ->
  ObservedGeneration st = GetGeneration instance.
Proof.
  intros Hres. apply Do_answer in Hres as [_ Hgen]. by apply Hgen.
Qed.

Lemma Do_status_generation_witness :
  ObservedGeneration
    (scenario.status_of AssetReady AssetUploaded 1000 1 scenario.uploaded_ref)
  = GetGeneration scenario.a1.
Proof.
  exact (Do_status_generation (scenario.handler 100) 1050 scenario.a1
           scenario.plain scenario.scheduled scenario.happy
           (scenario.status_of AssetReady AssetUploaded 1000 1
              scenario.uploaded_ref)
           None eq_refl).
Defined.

(** X2.  The answers of [Do] are consistent: a Ready status has the reason
    Uploaded, a Pending one Scheduled or BucketNotReady, each with a nil
    error; a Failed status comes with a nil error exactly for
    MutationFailed, ValidationFailed and MissingContent, and with an error
    for BucketError, CleanupError, PullingFailed, MutationError,
    ValidationError, MetadataExtractionFailed, UploadFailed and
    RemoteContentVerificationError; no other phase or reason is returned. *)
Theorem Do_answer_consistent {W} `{Platform W} (h : assetHandler W)
    (now : time.Time) (instance : MetaAccessor) (spec : CommonAssetSpec)
    (status : CommonAssetStatus) (w : W) (a : Answer) :
  result_of (Do h now instance spec status w) = Returned a ->
  consistent a = true.
Proof.
  intros Hres. by apply Do_answer in Hres as [Hok _].
Qed.

Lemma Do_answer_consistent_witness :
  consistent
    (Some {| Phase := AssetFailed;
             Reason := AssetValidationFailed;
             Message := "bad";
             LastHeartbeatTime := 1000;
             ObservedGeneration := 1;
             AssetRef := scenario.no_ref |},
     None) = true.
Proof.
  exact (Do_answer_consistent (scenario.handler 100) 1050 scenario.a1
           (scenario.spec_of [] ["http://v"] []) scenario.scheduled
           scenario.rejected _ eq_refl).
Defined.

(** X3.  While the deletion timestamp is set, [Do] returns no status,
    whatever the status it is given, and calls nothing but the bucket
    probe, [ListObjects] and [DeleteObjects] (besides logging and
    recording events). *)
Theorem Do_deleting_returns_no_status {W} `{Platform W} (h : assetHandler W)
    (now : time.Time) (instance : MetaAccessor) (spec : CommonAssetSpec)
    (status : CommonAssetStatus) (w : W) :
  isOnDelete instance = true ->
  (forall st err,
     result_of (Do h now instance spec status w) <> Returned (Some st, err))
  /\ forallb delete_call (trace_of (Do h now instance spec status w)) = true.
Proof.
  intros Hdel. rewrite Do_onDelete by assumption.
  split.
  - intros st err Hres. rewrite result_of_framed in Hres.
    apply onDelete_answer in Hres. discriminate Hres.
  - rewrite trace_of_framed, !forallb_app, onDelete_calls. reflexivity.
Qed.

Lemma Do_deleting_returns_no_status_witness :
  result_of (Do (scenario.handler 100) 1050 scenario.a1_deleted scenario.plain
               scenario.empty_status scenario.happy)
  <> Returned (Some scenario.scheduled, None)
  /\ forallb delete_call
       (trace_of (Do (scenario.handler 100) 1050 scenario.a1_deleted
                    scenario.plain scenario.empty_status scenario.happy))
     = true.
Proof.
  destruct (Do_deleting_returns_no_status (scenario.handler 100) 1050
              scenario.a1_deleted scenario.plain scenario.empty_status
              scenario.happy eq_refl) as [Hnone Hcalls].
  split; [apply Hnone | exact Hcalls].
Defined.

(** X4.  Deleting an Asset whose bucket is not available: when the probe
    says the bucket is not ready, [Do] returns no status and no error; when
    the probe fails, [Do] returns no status and the probe's error wrapped
    with "while reading bucket status".  Either way the probe is the only
    collaborator called: the store is not touched. *)
Theorem Do_delete_without_bucket {W} `{Platform W} (h : assetHandler W)
    (now : time.Time) (instance : MetaAccessor) (spec : CommonAssetSpec)
    (status : CommonAssetStatus) (w : W) :
  isOnDelete instance = true ->
  (forall bucket w1,
     findBucketStatus h (GetNamespace instance) (BucketRefName (BucketRef spec)) w
     = (bucket, false, None, w1) ->
     result_of (Do h now instance spec status w) = Returned (None, None)
     /\ world_of (Do h now instance spec status w) = w1
     /\ collaborator_calls (trace_of (Do h now instance spec status w))
        = [EFindBucketStatus (GetNamespace instance)
             (BucketRefName (BucketRef spec)) (bucket, false, None)])
  /\ (forall bucket ready e w1,
        findBucketStatus h (GetNamespace instance)
          (BucketRefName (BucketRef spec)) w
        = (bucket, ready, Some e, w1) ->
        result_of (Do h now instance spec status w)
        = Returned (None, Some (errors.Wrap e "while reading bucket status"))
        /\ world_of (Do h now instance spec status w) = w1
        /\ collaborator_calls (trace_of (Do h now instance spec status w))
           = [EFindBucketStatus (GetNamespace instance)
                (BucketRefName (BucketRef spec)) (bucket, ready, Some e)]).
Proof.
  intros Hdel. rewrite Do_onDelete by assumption.
  split.
  - intros bucket w1 Hprobe. unfold_go. rewrite Hprobe.
    repeat split; reflexivity.
  - intros bucket ready e w1 Hprobe. unfold_go. rewrite Hprobe.
    repeat split; reflexivity.
Qed.

Lemma Do_delete_without_bucket_witness :
  let gone :=
    {| scenario.bucketAnswer := (None, false, None);
       scenario.listAnswer := (["a1/a.md"], None);
       scenario.deleteAnswer := None;
       scenario.containsAnswer := (true, None);
       scenario.putAnswer := None;
       scenario.loadAnswer := ("/tmp/w", [], None);
       scenario.mutateAnswer := (scenario.ok, None);
       scenario.validateAnswer := (scenario.ok, None);
       scenario.extractAnswer := ([], None);
       scenario.clock := 1000;
       scenario.cleaned := [] |} in
  result_of (Do (scenario.handler 100) 1050 scenario.a1_deleted scenario.plain
               scenario.scheduled gone) = Returned (None, None)
  /\ world_of (Do (scenario.handler 100) 1050 scenario.a1_deleted
                 scenario.plain scenario.scheduled gone) = gone
  /\ collaborator_calls
       (trace_of (Do (scenario.handler 100) 1050 scenario.a1_deleted
                    scenario.plain scenario.scheduled gone))
     = [EFindBucketStatus "default" "b1" (None, false, None)].
Proof.
  intros gone.
  destruct (Do_delete_without_bucket (scenario.handler 100) 1050
              scenario.a1_deleted scenario.plain scenario.scheduled gone
              eq_refl) as [Hnot_ready _].
  exact (Hnot_ready None gone eq_refl).
Defined.

(** ** The order of calls *)

Lemma each_after_split (Q : list Event -> Event -> Prop) (tr pre0 : list Event) :
  each_after Q pre0 tr ->
  forall pre e post, tr = pre ++ e :: post -> Q (pre0 ++ pre) e.
Proof.
  revert pre0. induction tr as [|x tr IH]; intros pre0 Hall pre e post Htr.
  - by destruct pre.
  - destruct Hall as [Hx Hrest]. destruct pre as [|y pre]; simplify_eq/=.
    + by rewrite app_nil_r.
    + specialize (IH _ Hrest pre e post eq_refl).
      by rewrite <- app_assoc in IH.
Qed.

(** An entry of [Do]'s trace that is not a log line lies in the branch's
    trace, with the two opening lines before it. *)
Lemma framed_split (line0 line1 line2 e : Event) (tr pre post : list Event) :
  is_log line0 = true -> is_log line1 = true -> is_log line2 = true ->
  is_log e = false ->
  [line0; line1] ++ tr ++ [line2] = pre ++ e :: post ->
  exists pre' post',
    pre = [line0; line1] ++ pre' /\ post = post' ++ [line2]
    /\ tr = pre' ++ e :: post'.
Proof.
  intros H0 H1 H2 He Heq.
  destruct pre as [|a [|b pre']]; simpl in Heq.
  - injection Heq as <- _. congruence.
  - injection Heq as _ <- _. congruence.
  - injection Heq as <- <- Heq. exists pre'.
    destruct post as [|x post _] using rev_ind.
    + apply app_inj_tail in Heq as [_ ->]. congruence.
    + rewrite app_comm_cons, app_assoc in Heq.
      apply app_inj_tail in Heq as [-> ->]. by exists post.
Qed.

Lemma configured_nonempty {A} (l : list A) :
  bool_decide (0 < length l)%nat = true -> l <> [].
Proof. intros Hlen ->. by apply bool_decide_eq_true_1 in Hlen; simpl in Hlen; lia. Qed.

Lemma listed_nonempty {A} (l : list A) :
  bool_decide (length l = 0%nat) = false -> l <> [].
Proof. intros Hlen ->. by apply bool_decide_eq_false_1 in Hlen. Qed.

Ltac each_entry :=
  cbn [each_after app after_success delete_after_listing passed_on
       answers_for is_stage_call forallb stage_succeeded andb];
  repeat match goal with
         | Hs : assethook.Success _ = _ |- _ => rewrite Hs
         end;
  cbn [andb];
  repeat split; try exact I.

Lemma onPending_fail_fast {W} `{Platform W} (h : assetHandler W)
    (object : MetaAccessor) (spec : CommonAssetSpec)
    (status : CommonAssetStatus) (w : W) :
  each_after after_success [] (trace_of (onPending h object spec status w)).
Proof. run_pending; each_entry. Qed.

Lemma onReady_fail_fast {W} `{Platform W} (h : assetHandler W)
    (object : MetaAccessor) (spec : CommonAssetSpec)
    (status : CommonAssetStatus) (w : W) :
  each_after after_success [] (trace_of (onReady h object spec status w)).
Proof. run_ready; each_entry. Qed.

Lemma onDelete_fail_fast {W} `{Platform W} (h : assetHandler W)
    (object : MetaAccessor) (spec : CommonAssetSpec) (w : W) :
  each_after after_success [] (trace_of (onDelete h object spec w)).
Proof. run_delete; each_entry. Qed.

Lemma stage_call_not_log (e : Event) : is_stage_call e = true -> is_log e = false.
Proof. by destruct e. Qed.

(** X5.  [Do] fails fast: in any run, a call to the bucket probe, the
    store, the loader or a webhook is only made when every call made before
    it succeeded.  After a failed stage nothing is called but the deferred
    [Clean]: in particular content that a webhook rejected is never
    uploaded. *)
Theorem Do_fail_fast {W} `{Platform W} (h : assetHandler W)
    (now : time.Time) (instance : MetaAccessor) (spec : CommonAssetSpec)
    (status : CommonAssetStatus) (w : W) (pre post : list Event) (e : Event) :
  trace_of (Do h now instance spec status w) = pre ++ e :: post ->
  is_stage_call e = true ->
  forallb stage_succeeded pre = true.
Proof.
  intros Htrace He. pose proof (stage_call_not_log e He) as Hlog.
  assert (Hbranch : forall line tr,
            each_after after_success [] tr ->
            [start_line; ELog line] ++ tr ++ [finish_line] = pre ++ e :: post ->
            forallb stage_succeeded pre = true).
  { intros line tr Hall Heq.
    apply framed_split in Heq as (pre' & post' & -> & _ & ->);
      try reflexivity; [|assumption].
    pose proof (each_after_split _ _ _ Hall pre' e post' eq_refl) as Hpre.
    unfold after_success in Hpre. rewrite He in Hpre. exact Hpre. }
  assert (Hlogs : forall l0 l1 l2 : string,
            [ELog l0; ELog l1; ELog l2] = pre ++ e :: post -> False).
  { intros l0 l1 l2 Heq.
    assert (Hin : In e [ELog l0; ELog l1; ELog l2])
      by (rewrite Heq; apply in_elt).
    simpl in Hin. destruct Hin as [<- | [<- | [<- | []]]]; discriminate. }
  destruct (Do_branch h now instance spec status w)
    as [(_ & HDo) | [(_ & _ & HDo) | [(_ & _ & _ & HDo)
        | [(_ & _ & _ & _ & line & HDo) | (_ & _ & _ & _ & _ & HDo)]]]];
    rewrite HDo in Htrace.
  - eapply Hbranch; [apply onDelete_fail_fast | exact Htrace].
  - exfalso. eapply Hlogs. exact Htrace.
  - eapply Hbranch; [apply onReady_fail_fast | exact Htrace].
  - eapply Hbranch; [apply onPending_fail_fast | exact Htrace].
  - exfalso. eapply Hlogs. exact Htrace.
Qed.

Lemma Do_fail_fast_witness :
  forallb stage_succeeded
    [start_line; ELog "On pending";
     ELog "Checking if bucket %s is ready b1";
     EFindBucketStatus "default" "b1"
       (Some {| RemoteName := "r1"; BucketURL := "http://cdn/r1" |}, true, None);
     ELog "Bucket %s is ready b1";
     ELog "Checking if bucket contains files for asset";
     EListObjects "r1" "a1" ([], None);
     ELog "Bucket doesn't contains asset files, nothing to delete";
     ELog "Loading files from %s http://x/a.zip";
     ELoad "http://x/a.zip" "a1" "package" "" ("/tmp/w", ["a.md"; "b.md"], None);
     ELog "Files loaded";
     EEventf scenario.a1 "Normal" AssetPulled "%s" [];
     ELog "Validating Asset content"] = true.
Proof.
  apply (Do_fail_fast (scenario.handler 100) 1050 scenario.a1
           (scenario.spec_of [] ["http://v"] []) scenario.scheduled
           scenario.rejected _
           [EEventf scenario.a1 "Warning" AssetValidationFailed "%s" ["bad"];
            EClean "/tmp/w"; finish_line]
           (EValidate "/tmp/w" ["a.md"; "b.md"] ["http://v"]
              ({| assethook.Success := false; assethook.Messages := "bad" |},
               None))).
  - reflexivity.
  - reflexivity.
Defined.

Lemma onPending_delete_after_listing {W} `{Platform W} (h : assetHandler W)
    (object : MetaAccessor) (spec : CommonAssetSpec)
    (status : CommonAssetStatus) (w : W) :
  each_after delete_after_listing []
    (trace_of (onPending h object spec status w)).
Proof.
  run_pending; each_entry.
  all: eexists; split; [eapply listed_nonempty; eassumption | find_event].
Qed.

Lemma onDelete_delete_after_listing {W} `{Platform W} (h : assetHandler W)
    (object : MetaAccessor) (spec : CommonAssetSpec) (w : W) :
  each_after delete_after_listing [] (trace_of (onDelete h object spec w)).
Proof.
  run_delete; each_entry.
  all: eexists; split; [eapply listed_nonempty; eassumption | find_event].
Qed.

(** X6.  The bulk delete is guarded by the listing: in any run of [Do], a
    call of [DeleteObjects] on a bucket and prefix comes after a call of
    [ListObjects] on the same bucket and prefix that returned no error and
    at least one object. *)
Theorem Do_delete_after_listing {W} `{Platform W} (h : assetHandler W)
    (now : time.Time) (instance : MetaAccessor) (spec : CommonAssetSpec)
    (status : CommonAssetStatus) (w : W) (pre post : list Event)
    (bucketName prefix : string) (ret : option error) :
  trace_of (Do h now instance spec status w)
  = pre ++ EDeleteObjects bucketName prefix ret :: post ->
  exists files,
    files <> [] /\ In (EListObjects bucketName prefix (files, None)) pre.
Proof.
  intros Htrace.
  assert (Hbranch : forall line tr,
            each_after delete_after_listing [] tr ->
            [start_line; ELog line] ++ tr ++ [finish_line]
            = pre ++ EDeleteObjects bucketName prefix ret :: post ->
            exists files,
              files <> []
              /\ In (EListObjects bucketName prefix (files, None)) pre).
  { intros line tr Hall Heq.
    apply framed_split in Heq as (pre' & post' & -> & _ & ->);
      try reflexivity.
    destruct (each_after_split _ _ _ Hall pre' _ post' eq_refl)
      as (files & Hfiles & Hin).
    exists files. split; [exact Hfiles|]. right. right. exact Hin. }
  assert (Hlogs : forall l0 l1 l2 : string,
            [ELog l0; ELog l1; ELog l2]
            = pre ++ EDeleteObjects bucketName prefix ret :: post -> False).
  { intros l0 l1 l2 Heq.
    assert (Hin : In (EDeleteObjects bucketName prefix ret)
                    [ELog l0; ELog l1; ELog l2])
      by (rewrite Heq; apply in_elt).
    simpl in Hin. destruct Hin as [Hin | [Hin | [Hin | []]]]; discriminate. }
  destruct (Do_branch h now instance spec status w)
    as [(_ & HDo) | [(_ & _ & HDo) | [(_ & _ & _ & HDo)
        | [(_ & _ & _ & _ & line & HDo) | (_ & _ & _ & _ & _ & HDo)]]]];
    rewrite HDo in Htrace.
  - eapply Hbranch; [apply onDelete_delete_after_listing | exact Htrace].
  - exfalso. eapply Hlogs. exact Htrace.
  - exfalso.
    assert (Hin : In (EDeleteObjects bucketName prefix ret)
                    (trace_of (onReady h instance spec status w))).
    { eapply (in_framed_log _ start_line (ELog _) finish_line);
        try reflexivity.
      rewrite <- trace_of_framed, Htrace. apply in_elt. }
    eapply (not_among ready_call); [apply onReady_calls | | exact Hin].
    reflexivity.
  - eapply Hbranch; [apply onPending_delete_after_listing | exact Htrace].
  - exfalso. eapply Hlogs. exact Htrace.
Qed.

Lemma Do_delete_after_listing_witness :
  exists files,
    files <> []
    /\ In (EListObjects "r1" "a1" (files, None))
         [start_line; ELog "On delete"; ELog "Deleting Asset";
          EFindBucketStatus "default" "b1"
            (Some {| RemoteName := "r1"; BucketURL := "http://cdn/r1" |},
             true, None);
          ELog "Checking if bucket contains files for asset";
          EListObjects "r1" "a1" (["a1/a.md"; "a1/b.md"], None);
          ELog "Deleting asset remote content"].
Proof.
  apply (Do_delete_after_listing (scenario.handler 100) 1050
           scenario.a1_deleted scenario.plain scenario.scheduled
           scenario.delete_fails _ [finish_line] "r1" "a1" (Some "boom")).
  reflexivity.
Defined.

(** ** What the pipeline passes on *)

Lemma passed_on_more (object : MetaAccessor) (spec : CommonAssetSpec)
    (pre pre' : list Event) (e : Event) :
  (forall x, In x pre -> In x pre') ->
  passed_on object spec pre e -> passed_on object spec pre' e.
Proof.
  intros Hmore. destruct e; simpl; try exact id.
  - intros (Hname & Hload & bucket & Hremote & Hprobe).
    split; [exact Hname|]. split; [by apply Hmore|].
    exists bucket. split; [exact Hremote | by apply Hmore].
  - intros (Hservices & Hconfigured & Hload).
    split; [exact Hservices|]. split; [exact Hconfigured | by apply Hmore].
  - intros (Hservices & Hconfigured & Hload).
    split; [exact Hservices|]. split; [exact Hconfigured | by apply Hmore].
  - intros (Hservices & Hconfigured & Hload).
    split; [exact Hservices|]. split; [exact Hconfigured | by apply Hmore].
Qed.

Lemma onPending_passes_on {W} `{Platform W} (h : assetHandler W)
    (object : MetaAccessor) (spec : CommonAssetSpec)
    (status : CommonAssetStatus) (w : W) :
  each_after (passed_on object spec) []
    (trace_of (onPending h object spec status w)).
Proof.
  run_pending; each_entry.
  all: try reflexivity; try find_event;
    try (eapply configured_nonempty; eassumption).
  all: eexists; split; [reflexivity | find_event].
Qed.

Lemma onReady_passes_on {W} `{Platform W} (h : assetHandler W)
    (object : MetaAccessor) (spec : CommonAssetSpec)
    (status : CommonAssetStatus) (w : W) :
  each_after (passed_on object spec) []
    (trace_of (onReady h object spec status w)).
Proof. run_ready; each_entry. Qed.

Lemma onDelete_passes_on {W} `{Platform W} (h : assetHandler W)
    (object : MetaAccessor) (spec : CommonAssetSpec) (w : W) :
  each_after (passed_on object spec) [] (trace_of (onDelete h object spec w)).
Proof. run_delete; each_entry. Qed.

(** X7.  What the pipeline passes on.  In any run of [Do]:
    - [PutObjects] is called with the Asset's name as prefix, with the
      remote name of the bucket that the probe returned earlier in the run,
      and with the base path and file names that [Load] returned earlier in
      the run;
    - the mutator, the validator and the metadata extractor are called only
      when their webhook list in the spec is not empty, with that list, and
      with the base path and file names that [Load] returned. *)
Theorem Do_pipeline_data_flow {W} `{Platform W} (h : assetHandler W)
    (now : time.Time) (instance : MetaAccessor) (spec : CommonAssetSpec)
    (status : CommonAssetStatus) (w : W) (pre post : list Event) (e : Event) :
  trace_of (Do h now instance spec status w) = pre ++ e :: post ->
  passed_on instance spec pre e.
Proof.
  intros Htrace.
  destruct (is_log e) eqn:Hlog; [by destruct e|].
  assert (Hbranch : forall line tr,
            each_after (passed_on instance spec) [] tr ->
            [start_line; ELog line] ++ tr ++ [finish_line] = pre ++ e :: post ->
            passed_on instance spec pre e).
  { intros line tr Hall Heq.
    apply framed_split in Heq as (pre' & post' & -> & _ & ->);
      try reflexivity; [|assumption].
    eapply passed_on_more;
      [|exact (each_after_split _ _ _ Hall pre' e post' eq_refl)].
    intros x Hx. right. right. exact Hx. }
  assert (Hlogs : forall l0 l1 l2 : string,
            [ELog l0; ELog l1; ELog l2] = pre ++ e :: post -> False).
  { intros l0 l1 l2 Heq.
    assert (Hin : In e [ELog l0; ELog l1; ELog l2])
      by (rewrite Heq; apply in_elt).
    simpl in Hin. destruct Hin as [<- | [<- | [<- | []]]]; discriminate. }
  destruct (Do_branch h now instance spec status w)
    as [(_ & HDo) | [(_ & _ & HDo) | [(_ & _ & _ & HDo)
        | [(_ & _ & _ & _ & line & HDo) | (_ & _ & _ & _ & _ & HDo)]]]];
    rewrite HDo in Htrace.
  - eapply Hbranch; [apply onDelete_passes_on | exact Htrace].
  - exfalso. eapply Hlogs. exact Htrace.
  - eapply Hbranch; [apply onReady_passes_on | exact Htrace].
  - eapply Hbranch; [apply onPending_passes_on | exact Htrace].
  - exfalso. eapply Hlogs. exact Htrace.
Qed.

Lemma Do_pipeline_data_flow_witness :
  passed_on scenario.a1 (scenario.spec_of [] ["http://v"] [])
    [start_line; ELog "On pending";
     ELog "Checking if bucket %s is ready b1";
     EFindBucketStatus "default" "b1"
       (Some {| RemoteName := "r1"; BucketURL := "http://cdn/r1" |}, true, None);
     ELog "Bucket %s is ready b1";
     ELog "Checking if bucket contains files for asset";
     EListObjects "r1" "a1" ([], None);
     ELog "Bucket doesn't contains asset files, nothing to delete";
     ELog "Loading files from %s http://x/a.zip";
     ELoad "http://x/a.zip" "a1" "package" "" ("/tmp/w", ["a.md"; "b.md"], None);
     ELog "Files loaded";
     EEventf scenario.a1 "Normal" AssetPulled "%s" [];
     ELog "Validating Asset content"]
    (EValidate "/tmp/w" ["a.md"; "b.md"] ["http://v"]
       ({| assethook.Success := false; assethook.Messages := "bad" |}, None)).
Proof.
  apply (Do_pipeline_data_flow (scenario.handler 100) 1050 scenario.a1
           (scenario.spec_of [] ["http://v"] []) scenario.scheduled
           scenario.rejected _
           [EEventf scenario.a1 "Warning" AssetValidationFailed "%s" ["bad"];
            EClean "/tmp/w"; finish_line]).
  reflexivity.
Defined.

(** ** Panics *)

Lemma onPending_panics {W} `{Platform W} (h : assetHandler W)
    (object : MetaAccessor) (spec : CommonAssetSpec)
    (status : CommonAssetStatus) (w : W) :
  result_of (onPending h object spec status w) = Panicked
  <-> In (EFindBucketStatus (GetNamespace object)
            (BucketRefName (BucketRef spec)) (None, true, None))
         (trace_of (onPending h object spec status w)).
Proof.
  run_pending.
  all: split; [intros Hres; try discriminate Hres; find_event
              | intros Hin; event_cases Hin; simplify_eq; reflexivity].
Qed.

Lemma onReady_panics {W} `{Platform W} (h : assetHandler W)
    (object : MetaAccessor) (spec : CommonAssetSpec)
    (status : CommonAssetStatus) (w : W) :
  result_of (onReady h object spec status w) = Panicked
  <-> In (EFindBucketStatus (GetNamespace object)
            (BucketRefName (BucketRef spec)) (None, true, None))
         (trace_of (onReady h object spec status w)).
Proof.
  run_ready.
  all: split; [intros Hres; try discriminate Hres; find_event
              | intros Hin; event_cases Hin; simplify_eq; reflexivity].
Qed.

Lemma onDelete_panics {W} `{Platform W} (h : assetHandler W)
    (object : MetaAccessor) (spec : CommonAssetSpec) (w : W) :
  result_of (onDelete h object spec w) = Panicked
  <-> In (EFindBucketStatus (GetNamespace object)
            (BucketRefName (BucketRef spec)) (None, true, None))
         (trace_of (onDelete h object spec w)).
Proof.
  run_delete.
  all: split; [intros Hres; try discriminate Hres; find_event
              | intros Hin; event_cases Hin; simplify_eq; reflexivity].
Qed.

(** X8.  [Do] panics exactly when the bucket probe answers "ready" with no
    error and a nil status: the handler reads the remote name through the
    pointer without a nil check.  With a probe that returns a status
    whenever it says ready, [Do] never panics. *)
Theorem Do_panics_iff {W} `{Platform W} (h : assetHandler W)
    (now : time.Time) (instance : MetaAccessor) (spec : CommonAssetSpec)
    (status : CommonAssetStatus) (w : W) :
  result_of (Do h now instance spec status w) = Panicked
  <-> In (EFindBucketStatus (GetNamespace instance)
            (BucketRefName (BucketRef spec)) (None, true, None))
         (trace_of (Do h now instance spec status w)).
Proof.
  assert (Hbranch : forall line (r : Outcome Answer * W * list Event),
            (result_of r = Panicked
             <-> In (EFindBucketStatus (GetNamespace instance)
                       (BucketRefName (BucketRef spec)) (None, true, None))
                    (trace_of r)) ->
            result_of (framed [start_line; ELog line] [finish_line] r) = Panicked
            <-> In (EFindBucketStatus (GetNamespace instance)
                      (BucketRefName (BucketRef spec)) (None, true, None))
                   (trace_of (framed [start_line; ELog line] [finish_line] r))).
  { intros line r Hr. rewrite result_of_framed, Hr. split.
    - apply in_framed.
    - intros Hin. rewrite trace_of_framed in Hin.
      by apply in_framed_log in Hin. }
  destruct (Do_branch h now instance spec status w)
    as [(_ & ->) | [(_ & _ & ->) | [(_ & _ & _ & ->)
        | [(_ & _ & _ & _ & line & ->) | (_ & _ & _ & _ & _ & ->)]]]].
  - apply Hbranch, onDelete_panics.
  - split; [discriminate|].
    intros [Hin | [Hin | [Hin | []]]]; discriminate Hin.
  - apply Hbranch, onReady_panics.
  - apply Hbranch, onPending_panics.
  - split; [discriminate|].
    intros [Hin | [Hin | [Hin | []]]]; discriminate Hin.
Qed.

Lemma Do_panics_iff_witness :
  let broken :=
    {| scenario.bucketAnswer := (None, true, None);
       scenario.listAnswer := ([], None);
       scenario.deleteAnswer := None;
       scenario.containsAnswer := (true, None);
       scenario.putAnswer := None;
       scenario.loadAnswer := ("/tmp/w", [], None);
       scenario.mutateAnswer := (scenario.ok, None);
       scenario.validateAnswer := (scenario.ok, None);
       scenario.extractAnswer := ([], None);
       scenario.clock := 1000;
       scenario.cleaned := [] |} in
  result_of (Do (scenario.handler 100) 1050 scenario.a1 scenario.plain
               scenario.scheduled broken) = Panicked
  /\ result_of (Do (scenario.handler 100) 1050 scenario.a1 scenario.plain
                  scenario.scheduled scenario.happy) <> Panicked.
Proof.
  intros broken. split.
  - apply (Do_panics_iff (scenario.handler 100) 1050 scenario.a1 scenario.plain
             scenario.scheduled broken).
    vm_compute. tauto.
  - intros Hpanic.
    apply (Do_panics_iff (scenario.handler 100) 1050 scenario.a1 scenario.plain
             scenario.scheduled scenario.happy) in Hpanic.
    vm_compute in Hpanic.
    repeat (destruct Hpanic as [Hpanic | Hpanic]; [discriminate Hpanic|]).
    destruct Hpanic.
Defined.

(** ** Failures outside deletion *)

Lemma each_after_in (Q : Event -> Prop) (tr : list Event) :
  each_after (fun _ => Q) [] tr -> forall e, In e tr -> Q e.
Proof.
  intros Hall e Hin. apply in_split in Hin as (pre & post & ->).
  exact (each_after_split _ _ _ Hall pre e post eq_refl).
Qed.

Lemma onPending_answers_for {W} `{Platform W} (h : assetHandler W)
    (object : MetaAccessor) (spec : CommonAssetSpec)
    (status : CommonAssetStatus) (w : W) :
  each_after (fun _ => answers_for (result_of (onPending h object spec status w)))
    [] (trace_of (onPending h object spec status w)).
Proof.
  run_pending; each_entry.
  all: eexists; repeat split; reflexivity.
Qed.

Lemma onReady_answers_for {W} `{Platform W} (h : assetHandler W)
    (object : MetaAccessor) (spec : CommonAssetSpec)
    (status : CommonAssetStatus) (w : W) :
  each_after (fun _ => answers_for (result_of (onReady h object spec status w)))
    [] (trace_of (onReady h object spec status w)).
Proof.
  run_ready; each_entry.
  all: eexists; repeat split; reflexivity.
Qed.

(** X9.  Outside deletion, the failed call decides the answer of [Do]:
    - the bucket probe failing gives Failed/BucketError with the probe's
      error, in the pipeline and in re-verification alike;
    - the probe saying "not ready" gives Pending/BucketNotReady with a nil
      error (a Ready Asset falls back to Pending);
    - [ListObjects] failing gives Failed/CleanupError with the error
      wrapped with "while listing files in bucket";
    - [Load] failing gives Failed/PullingFailed, the metadata extractor
      failing Failed/MetadataExtractionFailed, [PutObjects] failing
      Failed/UploadFailed, each with the error as returned. *)
Theorem Do_failure_answers {W} `{Platform W} (h : assetHandler W)
    (now : time.Time) (instance : MetaAccessor) (spec : CommonAssetSpec)
    (status : CommonAssetStatus) (w : W) (e : Event) :
  isOnDelete instance = false ->
  In e (trace_of (Do h now instance spec status w)) ->
  answers_for (result_of (Do h now instance spec status w)) e.
Proof.
  intros Hdel Hin.
  destruct (is_log e) eqn:Hlog; [by destruct e|].
  assert (Hlogs : forall l0 l1 l2 : string,
            In e [ELog l0; ELog l1; ELog l2] -> False).
  { intros l0 l1 l2 [<- | [<- | [<- | []]]]; discriminate. }
  destruct (Do_branch h now instance spec status w)
    as [(Hdel' & _) | [(_ & _ & HDo) | [(_ & _ & _ & HDo)
        | [(_ & _ & _ & _ & line & HDo) | (_ & _ & _ & _ & _ & HDo)]]]];
    [congruence | rewrite HDo in * ..].
  - exfalso. eapply Hlogs. exact Hin.
  - rewrite trace_of_framed in Hin.
    apply in_framed_log in Hin; try reflexivity; [|assumption].
    rewrite result_of_framed.
    by eapply (each_after_in _ _ (onReady_answers_for h instance spec status w)).
  - rewrite trace_of_framed in Hin.
    apply in_framed_log in Hin; try reflexivity; [|assumption].
    rewrite result_of_framed.
    by eapply (each_after_in _ _ (onPending_answers_for h instance spec status w)).
  - exfalso. eapply Hlogs. exact Hin.
Qed.

Lemma Do_failure_answers_witness :
  failed_with AssetPullingFailed "unreachable"
    (result_of (Do (scenario.handler 100) 1050 scenario.a1 scenario.plain
                  scenario.scheduled scenario.load_fails)).
Proof.
  apply (Do_failure_answers (scenario.handler 100) 1050 scenario.a1
           scenario.plain scenario.scheduled scenario.load_fails
           (ELoad "http://x/a.zip" "a1" "package" ""
              ("/tmp/w", [], Some "unreachable"))).
  - reflexivity.
  - vm_compute. tauto.
Defined.

(** ** Deletion *)

Lemma onDelete_outcomes {W} `{Platform W} (h : assetHandler W)
    (object : MetaAccessor) (spec : CommonAssetSpec) (w : W) :
  (forall bucketName prefix files e,
     In (EListObjects bucketName prefix (files, Some e))
        (trace_of (onDelete h object spec w)) ->
     result_of (onDelete h object spec w)
     = Returned (None, Some (errors.Wrap e "while listing files in bucket"))
     /\ normal_reasons (trace_of (onDelete h object spec w)) = [])
  /\ (forall bucketName prefix,
        In (EListObjects bucketName prefix ([], None))
           (trace_of (onDelete h object spec w)) ->
        result_of (onDelete h object spec w) = Returned (None, None)
        /\ existsb is_delete (trace_of (onDelete h object spec w)) = false
        /\ normal_reasons (trace_of (onDelete h object spec w)) = [])
  /\ (forall bucketName prefix,
        In (EDeleteObjects bucketName prefix None)
           (trace_of (onDelete h object spec w)) ->
        result_of (onDelete h object spec w) = Returned (None, None)
        /\ normal_reasons (trace_of (onDelete h object spec w))
           = [AssetCleaned]).
Proof.
  run_delete.
  all: repeat split; intros;
    match goal with
    | Hin : In _ _ |- _ => event_cases Hin; simplify_eq
    end;
    try reflexivity.
Qed.

Lemma normal_reasons_framed_log {W A} (line0 line1 line2 : string)
    (r : Outcome A * W * list Event) :
  normal_reasons (trace_of (framed [ELog line0; ELog line1] [ELog line2] r))
  = normal_reasons (trace_of r).
Proof.
  rewrite trace_of_framed. simpl.
  induction (trace_of r) as [|e tr IH]; [reflexivity|].
  simpl. destruct e; try exact IH.
  destruct (String.eqb eventType "Normal"); [by rewrite IH | exact IH].
Qed.

Lemma existsb_is_delete_framed_log {W A} (line0 line1 line2 : string)
    (r : Outcome A * W * list Event) :
  existsb is_delete
    (trace_of (framed [ELog line0; ELog line1] [ELog line2] r))
  = existsb is_delete (trace_of r).
Proof.
  rewrite trace_of_framed. simpl. rewrite existsb_app. simpl.
  by rewrite orb_false_r.
Qed.

(** X10.  Deleting an Asset whose bucket is ready:
    - [ListObjects] failing makes [Do] return no status and the error
      wrapped with "while listing files in bucket";
    - an empty listing makes [Do] return no status and no error without
      calling [DeleteObjects] and without a Cleaned event;
    - [DeleteObjects] succeeding makes [Do] return no status and no error,
      with exactly one Normal event, Cleaned. *)
Theorem Do_delete_outcomes {W} `{Platform W} (h : assetHandler W)
    (now : time.Time) (instance : MetaAccessor) (spec : CommonAssetSpec)
    (status : CommonAssetStatus) (w : W) :
  isOnDelete instance = true ->
  (forall bucketName prefix files e,
     In (EListObjects bucketName prefix (files, Some e))
        (trace_of (Do h now instance spec status w)) ->
     result_of (Do h now instance spec status w)
     = Returned (None, Some (errors.Wrap e "while listing files in bucket"))
     /\ normal_reasons (trace_of (Do h now instance spec status w)) = [])
  /\ (forall bucketName prefix,
        In (EListObjects bucketName prefix ([], None))
           (trace_of (Do h now instance spec status w)) ->
        result_of (Do h now instance spec status w) = Returned (None, None)
        /\ existsb is_delete (trace_of (Do h now instance spec status w))
           = false
        /\ normal_reasons (trace_of (Do h now instance spec status w)) = [])
  /\ (forall bucketName prefix,
        In (EDeleteObjects bucketName prefix None)
           (trace_of (Do h now instance spec status w)) ->
        result_of (Do h now instance spec status w) = Returned (None, None)
        /\ normal_reasons (trace_of (Do h now instance spec status w))
           = [AssetCleaned]).
Proof.
  intros Hdel. rewrite Do_onDelete by assumption.
  unfold start_line, finish_line.
  rewrite normal_reasons_framed_log, existsb_is_delete_framed_log,
    result_of_framed, trace_of_framed.
  destruct (onDelete_outcomes h instance spec w) as (Hlist & Hempty & Hdone).
  split; [|split].
  - intros bucketName prefix files e Hin.
    apply in_framed_log in Hin; try reflexivity. eauto.
  - intros bucketName prefix Hin.
    apply in_framed_log in Hin; try reflexivity. eauto.
  - intros bucketName prefix Hin.
    apply in_framed_log in Hin; try reflexivity. eauto.
Qed.

Lemma Do_delete_outcomes_witness :
  let stored :=
    scenario.with_store (["a1/a.md"; "a1/b.md"], None) None (true, None)
      scenario.happy in
  (result_of (Do (scenario.handler 100) 1050 scenario.a1_deleted scenario.plain
                scenario.scheduled stored) = Returned (None, None)
   /\ normal_reasons
        (trace_of (Do (scenario.handler 100) 1050 scenario.a1_deleted
                     scenario.plain scenario.scheduled stored))
      = [AssetCleaned])
  /\ (result_of (Do (scenario.handler 100) 1050 scenario.a1_deleted
                   scenario.plain scenario.scheduled scenario.happy)
      = Returned (None, None)
      /\ existsb is_delete
           (trace_of (Do (scenario.handler 100) 1050 scenario.a1_deleted
                        scenario.plain scenario.scheduled scenario.happy))
         = false
      /\ normal_reasons
           (trace_of (Do (scenario.handler 100) 1050 scenario.a1_deleted
                        scenario.plain scenario.scheduled scenario.happy))
         = []).
Proof.
  intros stored. split.
  - destruct (Do_delete_outcomes (scenario.handler 100) 1050
                scenario.a1_deleted scenario.plain scenario.scheduled stored
                eq_refl) as (_ & _ & Hdone).
    apply (Hdone "r1" "a1"). vm_compute. tauto.
  - destruct (Do_delete_outcomes (scenario.handler 100) 1050
                scenario.a1_deleted scenario.plain scenario.scheduled
                scenario.happy eq_refl) as (_ & Hempty & _).
    apply (Hempty "r1" "a1"). vm_compute. tauto.
Defined.

(** ** Re-verification reads, and only reads *)

Lemma onReady_checks_recorded {W} `{Platform W} (h : assetHandler W)
    (object : MetaAccessor) (spec : CommonAssetSpec)
    (status : CommonAssetStatus) (w : W)
    (bucketName assetName : string) (names : list string)
    (ret : bool * option error) :
  In (EContainsAllObjects bucketName assetName names ret)
     (trace_of (onReady h object spec status w)) ->
  assetName = GetName object
  /\ names = map Name (Files (AssetRef status)).
Proof.
  rewrite <- extractNames_map. run_ready.
  all: intros Hin; event_cases Hin; simplify_eq.
  all: split; reflexivity.
Qed.

(** X11.  For a Ready Asset at its observed generation that is not being
    deleted, [Do] is read-only: whatever the instant, it calls nothing but
    the bucket probe and [ContainsAllObjects] (no listing, delete, load,
    webhook or upload), and [ContainsAllObjects] is asked for the Asset's
    name and exactly the file names recorded in the status, in order. *)
Theorem Do_ready_read_only {W} `{Platform W} (h : assetHandler W)
    (now : time.Time) (instance : MetaAccessor) (spec : CommonAssetSpec)
    (status : CommonAssetStatus) (w : W) :
  GetDeletionTimestamp instance = None ->
  ObservedGeneration status = GetGeneration instance ->
  Phase status = AssetReady ->
  forallb ready_call (trace_of (Do h now instance spec status w)) = true
  /\ forall bucketName assetName names ret,
       In (EContainsAllObjects bucketName assetName names ret)
          (trace_of (Do h now instance spec status w)) ->
       assetName = GetName instance
       /\ names = map Name (Files (AssetRef status)).
Proof.
  intros Hdel Hgen Hphase.
  destruct (Do_branch h now instance spec status w)
    as [(Hdel' & _) | [(_ & Hgen' & _) | [(_ & _ & _ & ->)
        | [(_ & _ & _ & [Hpending | Hfailed] & _)
          | (_ & _ & _ & _ & _ & ->)]]]].
  - rewrite isOnDelete_unset in Hdel' by assumption. discriminate.
  - rewrite isOnAddOrUpdate_false in Hgen' by assumption. discriminate.
  - split.
    + rewrite trace_of_framed, !forallb_app, onReady_calls. reflexivity.
    + intros bucketName assetName names ret Hin.
      rewrite trace_of_framed in Hin.
      apply in_framed_log in Hin; try reflexivity.
      by apply onReady_checks_recorded in Hin.
  - unfold isOnPending in Hpending. rewrite Hphase in Hpending. discriminate.
  - unfold isOnFailed in Hfailed. rewrite Hphase in Hfailed. discriminate.
  - split; [reflexivity|].
    intros bucketName assetName names ret [Hin | [Hin | [Hin | []]]];
      discriminate Hin.
Qed.

Lemma Do_ready_read_only_witness :
  let ready :=
    scenario.status_of AssetReady AssetUploaded 1000 1 scenario.uploaded_ref in
  forallb ready_call
    (trace_of (Do (scenario.handler 100) 1200 scenario.a1 scenario.plain ready
                 scenario.drifted)) = true
  /\ ("a1" = GetName scenario.a1 /\ ["a.md"; "b.md"] = ["a.md"; "b.md"]).
Proof.
  intros ready.
  destruct (Do_ready_read_only (scenario.handler 100) 1200 scenario.a1
              scenario.plain ready scenario.drifted eq_refl eq_refl eq_refl)
    as [Hcalls Hnames].
  split; [exact Hcalls|].
  apply (Hnames "r1" "a1" ["a.md"; "b.md"] (false, None)).
  vm_compute. tauto.
Defined.

(** ** One reconcile after another *)

Lemma consistent_error (st : CommonAssetStatus) (e : error) :
  consistent (Some st, Some e) = true ->
  Phase st = AssetFailed
  /\ Reason st <> AssetValidationFailed /\ Reason st <> AssetMutationFailed.
Proof.
  unfold consistent.
  destruct (Phase st), (Reason st); intros Hok; try discriminate Hok;
    repeat split; discriminate.
Qed.

(** X12.  Steady state: a Ready status returned by [Do], given back to [Do]
    for the same instance (not being deleted) at any instant up to its
    heartbeat plus the relist interval, makes [Do] return no status and no
    error, call no collaborator and leave the world as it is. *)
Theorem Do_ready_steady_state {W} `{Platform W} (h : assetHandler W)
    (now now' : time.Time) (instance : MetaAccessor) (spec : CommonAssetSpec)
    (status st : CommonAssetStatus) (err : option error) (w w' : W) :
  result_of (Do h now instance spec status w) = Returned (Some st, err) ->
  Phase st = AssetReady ->
  GetDeletionTimestamp instance = None ->
  now' <= LastHeartbeatTime st + relistInterval h ->
  result_of (Do h now' instance spec st w') = Returned (None, None)
  /\ collaborator_calls (trace_of (Do h now' instance spec st w')) = []
  /\ world_of (Do h now' instance spec st w') = w'.
Proof.
  intros Hres Hphase Hdel Hnow.
  apply Do_answer in Hres as [_ Hgen]. specialize (Hgen st eq_refl).
  rewrite Do_no_action.
  - repeat split; reflexivity.
  - by apply isOnDelete_unset.
  - by apply isOnAddOrUpdate_false.
  - unfold isOnReady, time.After, time.Add. rewrite Hphase. simpl.
    by apply Z.ltb_ge.
  - unfold isOnPending. rewrite Hphase. reflexivity.
  - unfold isOnFailed. rewrite Hphase. reflexivity.
Qed.

Lemma Do_ready_steady_state_witness :
  result_of (Do (scenario.handler 100) 1100 scenario.a1 scenario.plain
               (scenario.status_of AssetReady AssetUploaded 1000 1
                  scenario.uploaded_ref)
               scenario.drifted) = Returned (None, None).
Proof.
  apply (Do_ready_steady_state (scenario.handler 100) 1050 1100 scenario.a1
           scenario.plain scenario.scheduled
           (scenario.status_of AssetReady AssetUploaded 1000 1
              scenario.uploaded_ref)
           None scenario.happy scenario.drifted).
  - reflexivity.
  - reflexivity.
  - reflexivity.
  - discriminate.
Defined.

(** X13.  Every status that [Do] returns together with an error is retried:
    given back to [Do] for the same instance (not being deleted), at any
    instant and in any world, it makes [Do] run the pending pipeline
    through the "On failed" branch. *)
Theorem Do_error_is_retried {W} `{Platform W} (h : assetHandler W)
    (now now' : time.Time) (instance : MetaAccessor) (spec : CommonAssetSpec)
    (status st : CommonAssetStatus) (e : error) (w w' : W) :
  result_of (Do h now instance spec status w) = Returned (Some st, Some e) ->
  GetDeletionTimestamp instance = None ->
  Do h now' instance spec st w'
  = framed [start_line; ELog (Sprintf "On failed" [])] [finish_line]
      (onPending h instance spec st w').
Proof.
  intros Hres Hdel.
  apply Do_answer in Hres as [Hok Hgen]. specialize (Hgen st eq_refl).
  apply consistent_error in Hok as (Hphase & Hvalidation & Hmutation).
  apply Do_onFailed; auto using isOnDelete_unset, isOnAddOrUpdate_false.
  - unfold isOnReady. rewrite Hphase. reflexivity.
  - unfold isOnPending. rewrite Hphase. reflexivity.
  - unfold isOnFailed. rewrite Hphase.
    rewrite (bool_decide_eq_false_2 _ Hvalidation),
      (bool_decide_eq_false_2 _ Hmutation).
    reflexivity.
Qed.

Lemma Do_error_is_retried_witness :
  let failed :=
    {| Phase := AssetFailed;
       Reason := AssetPullingFailed;
       Message := "unreachable";
       LastHeartbeatTime := 1000;
       ObservedGeneration := 1;
       AssetRef := scenario.no_ref |} in
  Do (scenario.handler 100) 1001 scenario.a1 scenario.plain failed
    scenario.happy
  = framed [start_line; ELog (Sprintf "On failed" [])] [finish_line]
      (onPending (scenario.handler 100) scenario.a1 scenario.plain failed
         scenario.happy).
Proof.
  intros failed.
  exact (Do_error_is_retried (scenario.handler 100) 1050 1001 scenario.a1
           scenario.plain scenario.scheduled failed "unreachable"
           scenario.load_fails scenario.happy eq_refl eq_refl).
Defined.

(** X14.  A Pending status returned by [Do], given back to [Do] for the
    same instance (not being deleted):
    - with the reason Scheduled it makes [Do] run the pending pipeline, at
      any instant;
    - with the reason BucketNotReady it makes [Do] do nothing strictly
      before its heartbeat plus the relist interval, and run the pending
      pipeline from then on. *)
Theorem Do_pending_is_resumed {W} `{Platform W} (h : assetHandler W)
    (now now' : time.Time) (instance : MetaAccessor) (spec : CommonAssetSpec)
    (status st : CommonAssetStatus) (err : option error) (w w' : W) :
  result_of (Do h now instance spec status w) = Returned (Some st, err) ->
  Phase st = AssetPending ->
  GetDeletionTimestamp instance = None ->
  if bool_decide (Reason st = AssetBucketNotReady)
     && bool_decide (now' < LastHeartbeatTime st + relistInterval h)
  then
    Do h now' instance spec st w'
    = (Returned (None, None), w',
       [start_line; ELog (Sprintf "Action not taken" []); finish_line])
  else
    Do h now' instance spec st w'
    = framed [start_line; ELog (Sprintf "On pending" [])] [finish_line]
        (onPending h instance spec st w').
Proof.
  intros Hres Hphase Hdel.
  apply Do_answer in Hres as [_ Hgen]. specialize (Hgen st eq_refl).
  assert (Hready : isOnReady h st now' = false)
    by (unfold isOnReady; rewrite Hphase; reflexivity).
  assert (Hpending :
            isOnPending h st now'
            = negb (bool_decide (Reason st = AssetBucketNotReady)
                    && bool_decide
                         (now' < LastHeartbeatTime st + relistInterval h))).
  { unfold isOnPending, time.Before, time.Add. rewrite Hphase. simpl.
    destruct (bool_decide (Reason st = AssetBucketNotReady)); [|reflexivity].
    simpl.
    destruct (Z.ltb_spec now' (LastHeartbeatTime st + relistInterval h)).
    - by rewrite bool_decide_eq_true_2.
    - rewrite bool_decide_eq_false_2 by lia. reflexivity. }
  destruct (bool_decide (Reason st = AssetBucketNotReady)
            && bool_decide (now' < LastHeartbeatTime st + relistInterval h)).
  - apply Do_no_action; auto using isOnDelete_unset, isOnAddOrUpdate_false.
    unfold isOnFailed. rewrite Hphase. reflexivity.
  - apply Do_onPending; auto using isOnDelete_unset, isOnAddOrUpdate_false.
Qed.

Lemma Do_pending_is_resumed_witness :
  Do (scenario.handler 100) 1001 scenario.a1 scenario.plain scenario.scheduled
    scenario.happy
  = framed [start_line; ELog (Sprintf "On pending" [])] [finish_line]
      (onPending (scenario.handler 100) scenario.a1 scenario.plain
         scenario.scheduled scenario.happy).
Proof.
  exact (Do_pending_is_resumed (scenario.handler 100) 1000 1001 scenario.a1
           scenario.plain scenario.empty_status scenario.scheduled None
           scenario.happy scenario.happy eq_refl eq_refl eq_refl).
Defined.

(** ** Metadata *)

Lemma metadataMap_lookup (metadatas : list assethook.File)
    (m : gmap string (option RawMessage)) (name : string) :
  foldl (fun m metadata =>
           <[assethook.FileName metadata := assethook.FileMetadata metadata]> m)
        m metadatas !! name
  = match last_entry name metadatas with
    | Some found => Some found
    | None => m !! name
    end.
Proof.
  revert m. induction metadatas as [|metadata rest IH]; intros m; simpl.
  - reflexivity.
  - rewrite IH. destruct (last_entry name rest); [reflexivity|].
    destruct (String.eqb_spec (assethook.FileName metadata) name) as [-> | Hne].
    + by rewrite lookup_insert_eq.
    + by rewrite lookup_insert_ne.
Qed.

(** X15.  [mergeMetadata] keeps the files and their order, and gives each
    file the metadata of the last extractor entry that bears its name: nil
    when there is no such entry or when that entry's metadata is nil.  The
    metadata a file had before is dropped, and entries for other names are
    ignored. *)
Theorem mergeMetadata_last_entry (files : list AssetFile)
    (metadatas : list assethook.File) :
  mergeMetadata files metadatas
  = map (fun file =>
           {| Name := Name file;
              Metadata :=
                toRawExtension (default None (last_entry (Name file) metadatas)) |})
        files.
Proof.
  unfold mergeMetadata. cbv zeta.
  rewrite (foldl_snoc_map (fun file => {| Name := Name file; Metadata := _ |})).
  simpl. apply map_ext. intros file.
  rewrite metadataMap_lookup, lookup_empty.
  by destruct (last_entry (Name file) metadatas).
Qed.

(** ** Events of an upload *)

Lemma onPending_upload_events {W} `{Platform W} (h : assetHandler W)
    (object : MetaAccessor) (spec : CommonAssetSpec)
    (status : CommonAssetStatus) (w : W) (st : CommonAssetStatus)
    (err : option error) :
  result_of (onPending h object spec status w) = Returned (Some st, err) ->
  Phase st = AssetReady ->
  normal_reasons (trace_of (onPending h object spec status w))
  = upload_events spec
      (existsb is_delete (trace_of (onPending h object spec status w))).
Proof.
  unfold upload_events. run_pending.
  all: intros Hres Hphase; simplify_eq; try discriminate Hphase.
  all: reflexivity.
Qed.

(** X16.  When [Do] runs the pending pipeline to a Ready status, the Normal
    events it records are, in this order: Cleaned if remote content was
    deleted first, Pulled, Mutated if a mutation webhook is configured,
    Validated if a validation webhook is configured, MetadataExtracted if a
    metadata webhook is configured, and Uploaded. *)
Theorem Do_upload_events {W} `{Platform W} (h : assetHandler W)
    (now : time.Time) (instance : MetaAccessor) (spec : CommonAssetSpec)
    (status : CommonAssetStatus) (w : W) (st : CommonAssetStatus)
    (err : option error) :
  Phase status <> AssetReady ->
  result_of (Do h now instance spec status w) = Returned (Some st, err) ->
  Phase st = AssetReady ->
  normal_reasons (trace_of (Do h now instance spec status w))
  = upload_events spec
      (existsb is_delete (trace_of (Do h now instance spec status w))).
Proof.
  intros Hstatus Hres Hphase.
  destruct (Do_branch h now instance spec status w)
    as [(_ & HDo) | [(_ & _ & HDo) | [(_ & _ & Hready & _)
        | [(_ & _ & _ & _ & line & HDo) | (_ & _ & _ & _ & _ & HDo)]]]];
    try rewrite HDo in *.
  - rewrite result_of_framed in Hres. apply onDelete_answer in Hres.
    discriminate Hres.
  - unfold result_of in Hres. simpl in Hres. simplify_eq.
  - unfold isOnReady in Hready.
    rewrite bool_decide_eq_false_2 in Hready by assumption. discriminate.
  - unfold start_line, finish_line.
    rewrite normal_reasons_framed_log, existsb_is_delete_framed_log.
    rewrite result_of_framed in Hres.
    by eapply onPending_upload_events.
  - unfold result_of in Hres. simpl in Hres. simplify_eq.
Qed.

Lemma Do_upload_events_witness :
  normal_reasons
    (trace_of (Do (scenario.handler 100) 1050 scenario.a1
                 (scenario.spec_of [] ["http://v"] []) scenario.scheduled
                 (scenario.with_store (["a1/old.md"], None) None (true, None)
                    scenario.happy)))
  = [AssetCleaned; AssetPulled; AssetValidated; AssetUploaded].
Proof.
  exact (Do_upload_events (scenario.handler 100) 1050 scenario.a1
           (scenario.spec_of [] ["http://v"] []) scenario.scheduled
           (scenario.with_store (["a1/old.md"], None) None (true, None)
              scenario.happy)
           (scenario.status_of AssetReady AssetUploaded 1000 1
              scenario.uploaded_ref)
           None ltac:(discriminate) eq_refl eq_refl).
Defined.

(** ** The upload endpoint *)

Lemma populateFilesChannel_files_of {FileHeader UploadResult : Type}
    (r : requesthandler.RequestHandler FileHeader UploadResult)
    (form : requesthandler.Form FileHeader) (filesCount : nat)
    (directory : string) :
  requesthandler.populateFilesChannel r
    (default [] (requesthandler.FormFile form !! "public"))
    (default [] (requesthandler.FormFile form !! "private"))
    filesCount directory
  = requesthandler.files_of r form directory.
Proof.
  unfold requesthandler.populateFilesChannel, requesthandler.files_of.
  cbv zeta. by rewrite !foldl_snoc_map.
Qed.

Lemma length_zero_nil {A} (l : list A) :
  bool_decide (length l = 0%nat) = true -> l = [].
Proof. intros Hlen. apply bool_decide_eq_true_1 in Hlen. by destruct l. Qed.

Lemma length_nonzero_not_nil {A} (l : list A) :
  bool_decide (length l = 0%nat) = false -> l <> [].
Proof. intros Hlen ->. by apply bool_decide_eq_false_1 in Hlen. Qed.

(** The upload path of [ServeHTTP], once the directory is known. *)
Ltac upload_paths r form :=
  cbn [head];
  destruct (bool_decide
              ((length (default [] (requesthandler.FormFile form !! "public"))
                + length (default [] (requesthandler.FormFile form !! "private")))%nat
               = 0%nat)) eqn:Hcount;
  [|rewrite populateFilesChannel_files_of;
    destruct (requesthandler.UploadFiles r _ _)
      as [uploadedFiles errs] eqn:Hupload;
    rewrite (foldl_snoc_map
               (fun err =>
                  {| requesthandler.Message := requesthandler.Error err;
                     requesthandler.FileName :=
                       requesthandler.ErrorFileName err |}));
    rewrite app_nil_l;
    destruct (bool_decide (length (map _ errs) = 0%nat)) eqn:Herrs;
    [|destruct (bool_decide (length uploadedFiles = 0%nat)) eqn:Huploaded]].

(** Split [ServeHTTP] into its paths: unparsable, no form, empty directory
    list (panic), then no file, no error, no upload, some of each, for a
    given and for a generated directory. *)
Ltac serve_paths r rq :=
  match goal with
  | |- context [requesthandler.ServeHTTP ?f ?t r rq] =>
      let Hserve := fresh "Hserve" in
      destruct (requesthandler.ServeHTTP f t r rq) as [? ?] eqn:Hserve;
      revert Hserve
  end;
  unfold requesthandler.ServeHTTP, requesthandler.directory_of,
    requesthandler.cleanups, requesthandler.closeBody,
    requesthandler.removeFiles;
  cbv zeta;
  destruct (requesthandler.BodyClose rq) as [closeErr|] eqn:Hclose;
  destruct (requesthandler.RemoveAll rq) as [removeErr|] eqn:Hremove;
  (destruct (requesthandler.ParseMultipartForm rq) as [parseErr|] eqn:Hparse;
   [|destruct (requesthandler.MultipartForm rq) as [form|] eqn:Hform;
     [destruct (default None (requesthandler.FormValue form !! "directory"))
        as [[|directory values]|] eqn:Hdirectory;
      [|upload_paths r form|upload_paths r form]|]]);
  simpl; intros [= <- <-]; simpl.

(** X17.  Whenever [ServeHTTP] returns, it has written exactly one
    response, and the response goes with its status: 200 with no error
    entry; 207 with uploaded files and error entries; 502 with error entries
    and no uploaded file; 400 and 500 with a single error entry and no
    uploaded file. *)
Theorem ServeHTTP_one_response {FileHeader UploadResult : Type}
    (FormatInt : Z -> Z -> string) (unixTime : Z)
    (r : requesthandler.RequestHandler FileHeader UploadResult)
    (rq : requesthandler.Request FileHeader) :
  (requesthandler.ServeHTTP FormatInt unixTime r rq).1 = Returned tt ->
  exists statusCode resp,
    requesthandler.responses
      (requesthandler.ServeHTTP FormatInt unixTime r rq).2
    = [(statusCode, resp)]
    /\ requesthandler.fits statusCode resp.
Proof.
  serve_paths r rq; intros Hret; try discriminate Hret;
    do 2 eexists; (split; [reflexivity|]); unfold requesthandler.fits; simpl.
  all: first
    [ left; split; [reflexivity | by apply length_zero_nil]
    | right; left; split; [reflexivity|];
      split; by apply length_nonzero_not_nil
    | right; right; left; split; [reflexivity|];
      split; [by apply length_nonzero_not_nil | by apply length_zero_nil]
    | right; right; right;
      split; [by (left + right)|]; split; [reflexivity | by eexists] ].
Qed.

Lemma ServeHTTP_one_response_witness :
  exists statusCode resp,
    requesthandler.responses
      (upload_scenario.serve ["b.png"]
         (upload_scenario.request
            (Some (upload_scenario.form None ["a.png"; "b.png"] ["c.txt"])))).2
    = [(statusCode, resp)]
    /\ requesthandler.fits statusCode resp.
Proof.
  apply (ServeHTTP_one_response upload_scenario.formatInt 1700000000
           (upload_scenario.handler ["b.png"])
           (upload_scenario.request
              (Some (upload_scenario.form None ["a.png"; "b.png"] ["c.txt"])))).
  reflexivity.
Defined.

(** X18.  The status counter follows the response: [ServeHTTP] increments
    it once, with the status it writes, for every response but the 500 it
    writes for an unparsable request, which is not counted; a run that
    writes no response counts nothing. *)
Theorem ServeHTTP_status_counter {FileHeader UploadResult : Type}
    (FormatInt : Z -> Z -> string) (unixTime : Z)
    (r : requesthandler.RequestHandler FileHeader UploadResult)
    (rq : requesthandler.Request FileHeader) :
  requesthandler.counted (requesthandler.ServeHTTP FormatInt unixTime r rq).2
  = match requesthandler.responses
            (requesthandler.ServeHTTP FormatInt unixTime r rq).2 with
    | [(statusCode, _)] =>
        if bool_decide (statusCode = requesthandler.StatusInternalServerError)
        then []
        else [statusCode]
    | _ => []
    end.
Proof. serve_paths r rq; reflexivity. Qed.

Lemma files_of_length {FileHeader UploadResult : Type}
    (r : requesthandler.RequestHandler FileHeader UploadResult)
    (form : requesthandler.Form FileHeader) (directory : string) :
  length (requesthandler.files_of r form directory)
  = (length (default [] (requesthandler.FormFile form !! "public"))
     + length (default [] (requesthandler.FormFile form !! "private")))%nat.
Proof.
  unfold requesthandler.files_of. by rewrite length_app, !length_map.
Qed.

(** X19.  What reaches the uploader.  [ServeHTTP] calls [UploadFiles] at
    most once, and only for a parsed form with at least one file; it hands
    over the form's public files, bound for the public bucket, then its
    private files, bound for the private bucket, each in the form's order
    and all under one directory: the first value of the form's [directory]
    field, or a generated name when the field is absent.  The count it
    announces (the capacity of the channel) is the number of files sent.
    The uploader is left out exactly when the response is a 400 or a 500
    (or when no response is written). *)
Theorem ServeHTTP_uploader_input {FileHeader UploadResult : Type}
    (FormatInt : Z -> Z -> string) (unixTime : Z)
    (r : requesthandler.RequestHandler FileHeader UploadResult)
    (rq : requesthandler.Request FileHeader) :
  let effects := (requesthandler.ServeHTTP FormatInt unixTime r rq).2 in
  (length (requesthandler.uploads effects) <= 1)%nat
  /\ (forall files filesCount,
        In (files, filesCount) (requesthandler.uploads effects) ->
        filesCount = length files
        /\ files <> []
        /\ exists form directory,
             requesthandler.MultipartForm rq = Some form
             /\ requesthandler.directory_of FormatInt unixTime form
                = Some directory
             /\ files = requesthandler.files_of r form directory)
  /\ (requesthandler.uploads effects = []
      <-> forall statusCode resp,
            In (statusCode, resp) (requesthandler.responses effects) ->
            statusCode = requesthandler.StatusBadRequest
            \/ statusCode = requesthandler.StatusInternalServerError).
Proof.
  cbv zeta. serve_paths r rq.
  all: split; [simpl; lia|].
  all: split.
  all: try (intros files filesCount Hin; simpl in Hin; contradiction).
  all: try (intros files filesCount Hin; simpl in Hin;
            destruct Hin as [[= <- <-] | []];
            split; [by rewrite files_of_length|];
            split;
            [ intros Hnil; apply bool_decide_eq_false_1 in Hcount;
              apply Hcount; apply (f_equal length) in Hnil;
              by rewrite files_of_length in Hnil
            | exists form; eexists; split; [reflexivity|];
              rewrite Hdirectory; split; reflexivity ]).
  all: split.
  all: try reflexivity.
  all: try (intros Hnone; discriminate Hnone).
  all: try (intros _ statusCode resp Hin; simpl in Hin; contradiction).
  all: try (intros _ statusCode resp Hin; simpl in Hin;
            destruct Hin as [[= <- <-] | []]; by (left + right)).
  all: intros Hstatus; exfalso;
    destruct (Hstatus _ _ (or_introl eq_refl)) as [Hcode | Hcode];
    discriminate Hcode.
Qed.

Lemma ServeHTTP_uploader_input_witness :
  3%nat = length
            [{| requesthandler.Bucket := "public-bucket";
                requesthandler.File := "a.png";
                requesthandler.Directory := "docs" |};
             {| requesthandler.Bucket := "public-bucket";
                requesthandler.File := "b.png";
                requesthandler.Directory := "docs" |};
             {| requesthandler.Bucket := "private-bucket";
                requesthandler.File := "c.txt";
                requesthandler.Directory := "docs" |}]
  /\ exists form directory,
       Some (upload_scenario.form (Some ["docs"; "other"])
               ["a.png"; "b.png"] ["c.txt"]) = Some form
       /\ requesthandler.directory_of upload_scenario.formatInt 1700000000 form
          = Some directory
       /\ [{| requesthandler.Bucket := "public-bucket";
              requesthandler.File := "a.png";
              requesthandler.Directory := "docs" |};
           {| requesthandler.Bucket := "public-bucket";
              requesthandler.File := "b.png";
              requesthandler.Directory := "docs" |};
           {| requesthandler.Bucket := "private-bucket";
              requesthandler.File := "c.txt";
              requesthandler.Directory := "docs" |}]
          = requesthandler.files_of (upload_scenario.handler []) form directory.
Proof.
  destruct (ServeHTTP_uploader_input upload_scenario.formatInt 1700000000
              (upload_scenario.handler [])
              (upload_scenario.request
                 (Some (upload_scenario.form (Some ["docs"; "other"])
                          ["a.png"; "b.png"] ["c.txt"]))))
    as (_ & Hinput & _).
  destruct (Hinput _ 3%nat (or_introl eq_refl)) as (Hcount & _ & Hfiles).
  split; [exact Hcount | exact Hfiles].
Defined.

(** X20.  [ServeHTTP] panics exactly on a parsed form whose [directory]
    field is present but empty: it indexes the first value without
    checking the length.  It then writes no response and counts no status;
    the two deferred clean-ups still run. *)
Theorem ServeHTTP_panics_iff {FileHeader UploadResult : Type}
    (FormatInt : Z -> Z -> string) (unixTime : Z)
    (r : requesthandler.RequestHandler FileHeader UploadResult)
    (rq : requesthandler.Request FileHeader) :
  ((requesthandler.ServeHTTP FormatInt unixTime r rq).1 = Panicked
   <-> requesthandler.ParseMultipartForm rq = None
       /\ exists form,
            requesthandler.MultipartForm rq = Some form
            /\ requesthandler.FormValue form !! "directory" = Some (Some []))
  /\ ((requesthandler.ServeHTTP FormatInt unixTime r rq).1 = Panicked ->
      (requesthandler.ServeHTTP FormatInt unixTime r rq).2
      = requesthandler.cleanups rq
      /\ requesthandler.responses
           (requesthandler.ServeHTTP FormatInt unixTime r rq).2 = []
      /\ requesthandler.counted
           (requesthandler.ServeHTTP FormatInt unixTime r rq).2 = []).
Proof.
  serve_paths r rq.
  all: split.
  all: try (intros Hpanic; discriminate Hpanic).
  all: try (intros _; by repeat split).
  all: split.
  all: try (intros Hpanic; discriminate Hpanic).
  all: try reflexivity.
  all: try (intros _; split; [reflexivity|]; exists form;
            split; [reflexivity|];
            destruct (requesthandler.FormValue form !! "directory")
              as [[[|? ?]|]|]; simpl in Hdirectory;
            first [discriminate Hdirectory | reflexivity]).
  all: intros (Hnone & form' & Hform' & Hempty);
    try discriminate Hnone; try discriminate Hform';
    injection Hform' as <-; rewrite Hempty in Hdirectory;
    discriminate Hdirectory.
Qed.

Lemma ServeHTTP_panics_iff_witness :
  (upload_scenario.serve []
     (upload_scenario.request
        (Some (upload_scenario.form (Some []) ["a.png"] [])))).1 = Panicked.
Proof.
  apply (ServeHTTP_panics_iff upload_scenario.formatInt 1700000000
           (upload_scenario.handler [])
           (upload_scenario.request
              (Some (upload_scenario.form (Some []) ["a.png"] [])))).
  split; [reflexivity|]. eexists. split; reflexivity.
Defined.

(** X21.  The deferred clean-ups.  However [ServeHTTP] is left (response
    written, early return, panic), the request body is closed, as the very
    last call; the files of the multipart form are removed just before,
    exactly when a form was parsed; neither is called anywhere earlier.  An
    error from either is only logged. *)
Theorem ServeHTTP_cleans_up {FileHeader UploadResult : Type}
    (FormatInt : Z -> Z -> string) (unixTime : Z)
    (r : requesthandler.RequestHandler FileHeader UploadResult)
    (rq : requesthandler.Request FileHeader) :
  exists before,
    (requesthandler.ServeHTTP FormatInt unixTime r rq).2
    = before ++ requesthandler.cleanups rq
    /\ forallb (fun e => negb (requesthandler.is_cleanup e)) before = true.
Proof.
  unfold requesthandler.ServeHTTP, requesthandler.cleanups. cbv zeta.
  destruct (requesthandler.ParseMultipartForm rq) as [parseErr|];
    [|destruct (requesthandler.MultipartForm rq) as [form|]]; simpl.
  - eexists [_]. split; reflexivity.
  - rewrite <- app_assoc. eexists. split; [reflexivity|].
    destruct (default None (requesthandler.FormValue form !! "directory"))
      as [[|directory values]|]; [reflexivity| |]; cbn [head].
    + destruct (bool_decide _); [reflexivity|].
      destruct (requesthandler.UploadFiles r _ _). reflexivity.
    + destruct (bool_decide _); [reflexivity|].
      destruct (requesthandler.UploadFiles r _ _). reflexivity.
  - eexists [_; _]. split; reflexivity.
Qed.
